(** * Benchmarking system of the AI tax agent: model and properties

    Shallow embedding of [backend/app/services/benchmarking.py]
    (class [BenchmarkingSystem]).

    Modelling conventions.
    - A Python [dict] with string keys is a [gmap string value].
    - Python numbers ([int] and [float]) are exact rationals [Q]; the
      rounding of binary floating point is not modelled, and neither is
      the [OverflowError] Python raises when an [int] too large for a
      [float] enters a division or a product.  Statements about the
      entries of a comparison are therefore made of a comparison that has
      been computed, and use comparisons (which Python decides exactly)
      or the expression the code itself evaluates.
    - A test is the record [test]; the keys ["ai_results"] and
      ["human_results"] are always present and hold [None] or a dict, the
      keys ["ai_completed_at"], ["human_completed_at"] and ["comparison"]
      are absent until they are assigned: all five are [option] fields.
    - The registry object is passed explicitly; a method returns its
      outcome together with the registry it leaves behind.  A reference to
      a test dict inside [self.tests] is its position in the list, and an
      assignment through the reference is a list update at that position.
    - The clock is an input: a method that reads [time.time()] or
      [datetime.now().isoformat()] receives the value read.
    - Metric values are numbers or strings (the values the class itself
      writes); the dicts handed out by the methods are not mutated by the
      caller behind the object's back. *)

From Stdlib Require Import QArith Qminmax ZArith Lia DecimalString DecimalZ.
From Stdlib Require Import Lqa.
From stdpp Require Import gmap strings list fin_maps.

Local Open Scope Q_scope.
Local Open Scope string_scope.

(** ** Python values, exceptions and operators *)

Inductive value : Type :=
| VNum (q : Q)
| VStr (s : string).

Abbreviation dict := (gmap string value).

Inductive exn : Type :=
| AttributeError
| TypeError
| ZeroDivisionError.

Inductive result (A : Type) : Type :=
| Ok (a : A)
| Raise (e : exn).

Arguments Ok {A} a.
Arguments Raise {A} e.

(** The error monad: an exception aborts the rest of the computation. *)
Definition rbind {A B : Type} (r : result A) (k : A -> result B) : result B :=
  match r with
  | Ok a => k a
  | Raise e => Raise e
  end.

Notation "x <- r ;; k" := (rbind r (fun x => k))
  (at level 100, r at next level, right associativity).

Definition Qltb (x y : Q) : bool := negb (Qle_bool y x).

(** [o.get(k, dflt)] on an object that is either [None] or a dict:
    [None] has no attribute [get]. *)
Definition get (o : option dict) (k : string) (dflt : value) : result value :=
  match o with
  | None => Raise AttributeError
  | Some d => Ok (default dflt (d !! k))
  end.

(** [a < b]: numbers by value, strings lexicographically, a number
    against a string is a [TypeError]. *)
Definition py_lt (a b : value) : result bool :=
  match a, b with
  | VNum x, VNum y => Ok (Qltb x y)
  | VStr s, VStr u => Ok (String.ltb s u)
  | _, _ => Raise TypeError
  end.

(** [a > b]. *)
Definition py_gt (a b : value) : result bool :=
  match a, b with
  | VNum x, VNum y => Ok (Qltb y x)
  | VStr s, VStr u => Ok (String.ltb u s)
  | _, _ => Raise TypeError
  end.

(** [max(a, b)]: the first argument unless the second is strictly greater. *)
Definition py_max (a b : value) : result value :=
  g <- py_gt b a ;;
  Ok (if g then b else a).

(** [a / b], true division, on exact rationals: the quotient is not
    rounded, and an [int] operand beyond the range of a [float], for
    which Python raises [OverflowError], is outside the model. *)
Definition py_truediv (a b : value) : result Q :=
  match a, b with
  | VNum x, VNum y =>
      if Qeq_bool y 0 then Raise ZeroDivisionError else Ok (x / y)
  | _, _ => Raise TypeError
  end.

(** [a * c] for a float [c]: a string cannot be multiplied by a float.
    The product is exact, with the same two limits as the division. *)
Definition py_mul_float (a : value) (c : Q) : result Q :=
  match a with
  | VNum x => Ok (x * c)
  | VStr _ => Raise TypeError
  end.

(** [int(x)] truncates towards zero. *)
Definition py_int (x : Q) : Z := Z.quot (Qnum x) (Zpos (Qden x)).

(** [str(n)] for an integer, as an f-string renders it. *)
Definition py_str_int (n : Z) : string := NilZero.string_of_int (Z.to_int n).

(** ** Data model *)

Record accuracy_comparison_t : Type := {
  ai : value;
  human : value;
  winner : string
}.

Record cost_comparison_t : Type := {
  ai_cost : Q;
  human_cost : Q;
  savings : Q
}.

Record comparison_t : Type := {
  speed_advantage : string;
  speed_multiplier : Q;
  accuracy_comparison : accuracy_comparison_t;
  cost_comparison : cost_comparison_t;
  overall_winner : string
}.

Record test : Type := {
  test_id : string;
  test_type : string;
  scenario : dict;
  complexity : string;
  created_at : string;
  status : string;
  ai_results : option dict;
  human_results : option dict;
  ai_completed_at : option string;
  human_completed_at : option string;
  comparison : option comparison_t
}.

Definition set_ai_results (t : test) (r : dict) : test :=
  {| test_id := test_id t; test_type := test_type t; scenario := scenario t;
     complexity := complexity t; created_at := created_at t;
     status := status t;
     ai_results := Some r; human_results := human_results t;
     ai_completed_at := ai_completed_at t;
     human_completed_at := human_completed_at t;
     comparison := comparison t |}.

Definition set_ai_completed_at (t : test) (now : string) : test :=
  {| test_id := test_id t; test_type := test_type t; scenario := scenario t;
     complexity := complexity t; created_at := created_at t;
     status := status t;
     ai_results := ai_results t; human_results := human_results t;
     ai_completed_at := Some now;
     human_completed_at := human_completed_at t;
     comparison := comparison t |}.

Definition set_human_results (t : test) (r : dict) : test :=
  {| test_id := test_id t; test_type := test_type t; scenario := scenario t;
     complexity := complexity t; created_at := created_at t;
     status := status t;
     ai_results := ai_results t; human_results := Some r;
     ai_completed_at := ai_completed_at t;
     human_completed_at := human_completed_at t;
     comparison := comparison t |}.

Definition set_human_completed_at (t : test) (now : string) : test :=
  {| test_id := test_id t; test_type := test_type t; scenario := scenario t;
     complexity := complexity t; created_at := created_at t;
     status := status t;
     ai_results := ai_results t; human_results := human_results t;
     ai_completed_at := ai_completed_at t;
     human_completed_at := Some now;
     comparison := comparison t |}.

Definition set_status (t : test) (s : string) : test :=
  {| test_id := test_id t; test_type := test_type t; scenario := scenario t;
     complexity := complexity t; created_at := created_at t;
     status := s;
     ai_results := ai_results t; human_results := human_results t;
     ai_completed_at := ai_completed_at t;
     human_completed_at := human_completed_at t;
     comparison := comparison t |}.

Definition set_comparison (t : test) (c : comparison_t) : test :=
  {| test_id := test_id t; test_type := test_type t; scenario := scenario t;
     complexity := complexity t; created_at := created_at t;
     status := status t;
     ai_results := ai_results t; human_results := human_results t;
     ai_completed_at := ai_completed_at t;
     human_completed_at := human_completed_at t;
     comparison := Some c |}.

(** The object: [self.tests] and [self.results] (the latter is never
    touched after construction). *)
Record BenchmarkingSystem : Type := {
  tests : list test;
  results : list dict
}.

(** [__init__] *)
Definition init : BenchmarkingSystem := {| tests := []; results := [] |}.

(** [test[...] = ...] through the reference [i] into [self.tests]. *)
Definition store (self : BenchmarkingSystem) (i : nat) (t : test)
  : BenchmarkingSystem :=
  {| tests := <[i := t]> (tests self); results := results self |}.

(** ** Methods *)

(** [_get_test]: the first test of [self.tests] carrying the id, with its
    position, or [None]. *)
Definition _get_test (self : BenchmarkingSystem) (id : string)
  : option (nat * test) :=
  list_find (fun t => test_id t = id) (tests self).

(** [create_benchmark_test]; [clock] is the value of [time.time()] and
    [now] that of [datetime.now().isoformat()]. *)
Definition create_benchmark_test (self : BenchmarkingSystem)
    (ty : string) (sc : dict) (cx : string) (clock : Q) (now : string)
  : test * BenchmarkingSystem :=
  let t :=
    {| test_id := "bench_" +:+ py_str_int (py_int clock);
       test_type := ty;
       scenario := sc;
       complexity := cx;
       created_at := now;
       status := "pending";
       ai_results := None;
       human_results := None;
       ai_completed_at := None;
       human_completed_at := None;
       comparison := None |} in
  (t, {| tests := tests self ++ [t]; results := results self |}).

(** The dict returned when the id is unknown. *)
Definition not_found : dict := {[ "error" := VStr "Test not found" ]}.

(** The simulated AI metrics for a test type; [elapsed] is
    [time.time() - start_time]. *)
Definition ai_result (ty : string) (elapsed : Q) : dict :=
  if decide (ty = "tax_preparation") then
    <["time_taken" := VNum elapsed]>
    (<["accuracy_score" := VNum 0.98]>
    (<["completeness" := VNum 1.0]>
    (<["optimizations_found" := VNum 12]>
    (<["errors" := VNum 0]>
    (<["tax_saved" := VNum 8500]> ∅)))))
  else if decide (ty = "audit_defense") then
    <["time_taken" := VNum elapsed]>
    (<["response_quality" := VNum 0.95]>
    (<["legal_citations" := VNum 15]>
    (<["strategy_completeness" := VNum 0.97]>
    (<["estimated_success_rate" := VNum 0.82]> ∅))))
  else if decide (ty = "research") then
    <["time_taken" := VNum elapsed]>
    (<["sources_found" := VNum 23]>
    (<["relevance_score" := VNum 0.94]>
    (<["depth_of_analysis" := VNum 0.96]> ∅)))
  else
    {[ "error" := VStr "Unknown test type" ]}.

(** [run_ai_benchmark] (a coroutine without any [await]: it runs to
    completion when awaited).  [ai_agents] is not used by the body.  A
    test that was found is a non-empty dict, so [if not test] is taken
    only when [_get_test] returned [None]. *)
Definition run_ai_benchmark (self : BenchmarkingSystem)
    (id : string) (ai_agents : dict) (elapsed : Q) (now : string)
  : dict * BenchmarkingSystem :=
  match _get_test self id with
  | None => (not_found, self)
  | Some (i, t) =>
      let r := ai_result (test_type t) elapsed in
      let t1 := set_ai_results t r in
      let t2 := set_ai_completed_at t1 now in
      (r, store self i t2)
  end.

(** [_calculate_comparison].  [test.get("ai_results", {})] and
    [test.get("human_results", {})] return the stored value, [None]
    included: both keys exist from creation on, so the default [{}] is
    never used.  The entries of the dict literal are evaluated in the
    order they are written, each operand left to right. *)
Definition _calculate_comparison (t : test) : result comparison_t :=
  let ai_ := ai_results t in
  let human_ := human_results t in
  a0 <- get ai_ "time_taken" (VNum 0) ;;
  h999 <- get human_ "time_taken" (VNum 999) ;;
  faster <- py_lt a0 h999 ;;
  h1 <- get human_ "time_taken" (VNum 1) ;;
  a1 <- get ai_ "time_taken" (VNum 1) ;;
  m <- py_max a1 (VNum 0.1) ;;
  mult <- py_truediv h1 m ;;
  acc_a <- get ai_ "accuracy_score" (VNum 0) ;;
  acc_h <- get human_ "accuracy_score" (VNum 0) ;;
  acc_a' <- get ai_ "accuracy_score" (VNum 0) ;;
  acc_h' <- get human_ "accuracy_score" (VNum 0) ;;
  better <- py_gt acc_a' acc_h' ;;
  ca <- get ai_ "time_taken" (VNum 0) ;;
  cost_a <- py_mul_float ca 0.01 ;;
  ch <- get human_ "time_taken" (VNum 0) ;;
  hours <- py_truediv ch (VNum 3600) ;;
  ch' <- get human_ "time_taken" (VNum 0) ;;
  hours' <- py_truediv ch' (VNum 3600) ;;
  ca' <- get ai_ "time_taken" (VNum 0) ;;
  cost_a' <- py_mul_float ca' 0.01 ;;
  Ok {| speed_advantage := if faster then "AI" else "Human";
        speed_multiplier := mult;
        accuracy_comparison :=
          {| ai := acc_a; human := acc_h;
             winner := if better then "AI" else "Human" |};
        cost_comparison :=
          {| ai_cost := cost_a;
             human_cost := hours * 150;
             savings := hours' * 150 - cost_a' |};
        overall_winner := "AI" |}.

(** What [record_human_results] returns: the error dict or the comparison. *)
Inductive human_return : Type :=
| ErrorDict (d : dict)
| ComparisonDict (c : comparison_t).

(** [record_human_results]: the three assignments are made before the
    comparison is computed, so they persist when the computation raises. *)
Definition record_human_results (self : BenchmarkingSystem)
    (id : string) (hr : dict) (now : string)
  : result human_return * BenchmarkingSystem :=
  match _get_test self id with
  | None => (Ok (ErrorDict not_found), self)
  | Some (i, t) =>
      let t1 := set_human_results t hr in
      let t2 := set_human_completed_at t1 now in
      let t3 := set_status t2 "completed" in
      let self1 := store self i t3 in
      match _calculate_comparison t3 with
      | Raise e => (Raise e, self1)
      | Ok c => (Ok (ComparisonDict c), store self1 i (set_comparison t3 c))
      end
  end.

(** [get_all_tests] *)
Definition get_all_tests (self : BenchmarkingSystem) : list test := tests self.

(** [sum(...)] over integers and over numbers: starts from [0] and adds
    from the left. *)
Definition sum_Z (l : list Z) : Z := foldl Z.add 0%Z l.

Definition sum_Q (l : list Q) : Q := foldl Qplus 0 l.

(** [t.get("comparison", {}).get("overall_winner")] *)
Definition winner_of (t : test) : option string :=
  overall_winner <$> comparison t.

(** [t.get("comparison", {}).get("speed_multiplier", 0)] *)
Definition multiplier_of (t : test) : Q :=
  default 0 (speed_multiplier <$> comparison t).

(** [t.get("comparison", {}).get("cost_comparison", {}).get("savings", 0)] *)
Definition savings_of (t : test) : Q :=
  default 0 (savings <$> (cost_comparison <$> comparison t)).

(** [t.get("comparison")] as a condition: a stored comparison is a
    non-empty dict, hence true; a missing one is [None], hence false. *)
Definition has_comparison (t : test) : Prop := is_Some (comparison t).

Record leaderboard : Type := {
  total_tests : Z;
  ai_wins : Z;
  human_wins : Z;
  ai_win_rate : Q;
  average_speed_improvement : string;
  total_cost_savings : Q
}.

(** [get_leaderboard].  [format_1f] stands for the float formatting
    [f"{x:.1f}"] of the interpreter, on which nothing below depends. *)
Definition get_leaderboard (format_1f : Q -> string)
    (self : BenchmarkingSystem) : leaderboard :=
  let wins :=
    sum_Z ((fun _ => 1%Z) <$>
           filter (fun t => winner_of t = Some "AI") (tests self)) in
  let losses := (Z.of_nat (length (tests self)) - wins)%Z in
  let avg_speed_improvement :=
    sum_Q (multiplier_of <$> filter has_comparison (tests self))
    / inject_Z (Z.max (Z.of_nat (length (filter has_comparison (tests self)))) 1) in
  {| total_tests := Z.of_nat (length (tests self));
     ai_wins := wins;
     human_wins := losses;
     ai_win_rate :=
       inject_Z wins / inject_Z (Z.max (Z.of_nat (length (tests self))) 1);
     average_speed_improvement :=
       format_1f avg_speed_improvement +:+ "x faster";
     total_cost_savings := sum_Q (savings_of <$> tests self) |}.

(** ** Histories of calls

    The mutating methods, with the arguments and clock readings of one
    call; [get_all_tests] and [get_leaderboard] only read. *)
Inductive call : Type :=
| CreateBenchmarkTest (ty : string) (sc : dict) (cx : string)
                      (clock : Q) (now : string)
| RunAiBenchmark (id : string) (ai_agents : dict) (elapsed : Q) (now : string)
| RecordHumanResults (id : string) (hr : dict) (now : string).

(** The registry left behind by a call (whether it returns or raises). *)
Definition step (self : BenchmarkingSystem) (c : call) : BenchmarkingSystem :=
  match c with
  | CreateBenchmarkTest ty sc cx clock now =>
      (create_benchmark_test self ty sc cx clock now).2
  | RunAiBenchmark id ai_agents elapsed now =>
      (run_ai_benchmark self id ai_agents elapsed now).2
  | RecordHumanResults id hr now =>
      (record_human_results self id hr now).2
  end.

Definition run (self : BenchmarkingSystem) (cs : list call)
  : BenchmarkingSystem :=
  foldl step self cs.

(** The registries a program can observe: those a history of calls on a
    fresh object leads to. *)
Inductive reachable : BenchmarkingSystem -> Prop :=
| reachable_init : reachable init
| reachable_step self c : reachable self -> reachable (step self c).

(** The test a call is addressed to, if any. *)
Definition target (self : BenchmarkingSystem) (c : call) : option nat :=
  match c with
  | CreateBenchmarkTest _ _ _ _ _ => None
  | RunAiBenchmark id _ _ _ => fst <$> _get_test self id
  | RecordHumanResults id _ _ => fst <$> _get_test self id
  end.

(** ** The effect of a call on the test it is addressed to *)

(** The test left by [record_human_results] before the comparison is
    attempted. *)
Definition human_recorded (t : test) (hr : dict) (now : string) : test :=
  set_status (set_human_completed_at (set_human_results t hr) now) "completed".

(** The test left by [run_ai_benchmark]. *)
Definition ai_recorded (t : test) (elapsed : Q) (now : string) : test :=
  set_ai_completed_at (set_ai_results t (ai_result (test_type t) elapsed)) now.

Inductive evolves (t : test) : call -> test -> Prop :=
| evolves_ai id ai_agents elapsed now :
    evolves t (RunAiBenchmark id ai_agents elapsed now)
              (ai_recorded t elapsed now)
| evolves_human_raise id hr now e :
    _calculate_comparison (human_recorded t hr now) = Raise e ->
    evolves t (RecordHumanResults id hr now) (human_recorded t hr now)
| evolves_human_ok id hr now c :
    _calculate_comparison (human_recorded t hr now) = Ok c ->
    evolves t (RecordHumanResults id hr now)
              (set_comparison (human_recorded t hr now) c).

(** What the status of a test says about its results. *)
Definition status_tracks_human (t : test) : Prop :=
  (human_results t = None -> status t = "pending") /\
  (is_Some (human_results t) -> status t = "completed").

(** ** Concrete histories used below *)

Module Examples.

Definition stamp0 : string := "2023-11-14T22:13:20.200000".
Definition stamp1 : string := "2023-11-14T22:13:20.700000".
Definition stamp2 : string := "2023-11-14T22:15:01.000000".
Definition stamp3 : string := "2023-11-14T22:16:40.000000".

Definition the_id : string := "bench_1700000000".

(** One test, created at [time.time() = 1700000000.2]. *)
Definition created : BenchmarkingSystem :=
  step init (CreateBenchmarkTest "tax_preparation" ∅ "high" 1700000000.2 stamp0).

(** A second test created half a second later. *)
Definition created_twice : BenchmarkingSystem :=
  step created (CreateBenchmarkTest "research" ∅ "high" 1700000000.7 stamp1).

(** A second test created a hundred seconds later. *)
Definition created_later : BenchmarkingSystem :=
  step created (CreateBenchmarkTest "research" ∅ "high" 1700000100.9 stamp2).

Definition human_3h : dict :=
  <["time_taken" := VNum 10800]> {[ "accuracy_score" := VNum 0.95 ]}.


(** The human result arrives before any AI run. *)
Definition human_first : BenchmarkingSystem :=
  step created (RecordHumanResults the_id human_3h stamp2).

(** The AI run took five seconds. *)
Definition ai_done : BenchmarkingSystem :=
  step created (RunAiBenchmark the_id ∅ 5 stamp2).


(** AI run, then the human result. *)
Definition completed : BenchmarkingSystem :=
  step ai_done (RecordHumanResults the_id human_3h stamp3).


(** Two tests, the first one completed, the second one untouched. *)
Definition one_of_two : BenchmarkingSystem :=
  run created_later
    [RunAiBenchmark the_id ∅ 5 stamp2;
     RecordHumanResults the_id human_3h stamp3].

(** A test whose two results are given directly. *)
Definition test_with (a h : dict) : test :=
  {| test_id := the_id; test_type := "tax_preparation"; scenario := ∅;
     complexity := "high"; created_at := stamp0; status := "completed";
     ai_results := Some a; human_results := Some h;
     ai_completed_at := Some stamp2; human_completed_at := Some stamp3;
     comparison := None |}.

Definition ai_5s : dict := ai_result "tax_preparation" 5.

(** Equal times and equal accuracy scores on both sides. *)
Definition tie : dict :=
  <["time_taken" := VNum 60]> {[ "accuracy_score" := VNum 0.9 ]}.

End Examples.

(** ** Notions used to state further properties *)

(** The entries a test receives when it is created. *)
Definition creation_fields (t : test)
  : string * string * dict * string * string :=
  (test_id t, test_type t, scenario t, complexity t, created_at t).

(** The tests the calls of a history create, in the order of the calls
    (the dict built by [create_benchmark_test] does not depend on the
    registry). *)
Definition creations (cs : list call) : list test :=
  omap (fun c =>
          match c with
          | CreateBenchmarkTest ty sc cx clock now =>
              Some (create_benchmark_test init ty sc cx clock now).1
          | _ => None
          end) cs.

(** The whole seconds at which the calls of a history create tests. *)
Definition creation_seconds (cs : list call) : list Z :=
  omap (fun c =>
          match c with
          | CreateBenchmarkTest _ _ _ clock _ => Some (py_int clock)
          | _ => None
          end) cs.

(** An entry that holds a string. *)
Definition is_str (o : option value) : bool :=
  match o with
  | Some (VStr _) => true
  | _ => false
  end.

(** Two values [<] and [>] accept: two numbers or two strings. *)
Definition same_kind (a b : value) : bool :=
  match a, b with
  | VNum _, VNum _ => true
  | VStr _, VStr _ => true
  | _, _ => false
  end.

(** The two metric records can be compared: neither ["time_taken"] is a
    string, and the two ["accuracy_score"] entries (0 when missing) are of
    the same kind. *)
Definition comparable (a h : dict) : bool :=
  negb (is_str (a !! "time_taken")) &&
  negb (is_str (h !! "time_taken")) &&
  same_kind (default (VNum 0) (a !! "accuracy_score"))
            (default (VNum 0) (h !! "accuracy_score")).

(** What holds of every test of a registry that calls have led to. *)
Definition consistent (t : test) : Prop :=
  (forall c, comparison t = Some c ->
     is_Some (ai_results t) /\ is_Some (human_results t) /\
     status t = "completed" /\ overall_winner c = "AI") /\
  (forall a, ai_results t = Some a ->
     exists elapsed, a = ai_result (test_type t) elapsed) /\
  (is_Some (ai_completed_at t) <-> is_Some (ai_results t)) /\
  (is_Some (human_completed_at t) <-> is_Some (human_results t)).

Module MoreExamples.

(** A human record whose time is text. *)
Definition human_text : dict :=
  <["time_taken" := VStr "three hours"]> {[ "accuracy_score" := VNum 0.95 ]}.

(** An AI result with a time of zero seconds. *)
Definition ai_instant : dict := ai_result "tax_preparation" 0.

(** The simulated result of a research test that took a minute: it has
    no accuracy score. *)
Definition research_60 : dict := ai_result "research" 60.

(** A human record without a time. *)
Definition human_no_time : dict := {[ "accuracy_score" := VNum 0.95 ]}.

(** A test of a type the simulation does not know, then its AI run. *)
Definition unknown_created : BenchmarkingSystem :=
  step init (CreateBenchmarkTest "payroll" ∅ "low" 1700000000.2 Examples.stamp0).

Definition unknown_ai_done : BenchmarkingSystem :=
  step unknown_created (RunAiBenchmark Examples.the_id ∅ 5 Examples.stamp2).

(** A research test with its AI run. *)
Definition research_ai_done : BenchmarkingSystem :=
  run init [CreateBenchmarkTest "research" ∅ "high" 1700000000.2 Examples.stamp0;
            RunAiBenchmark Examples.the_id ∅ 5 Examples.stamp2].

(** A history with two creations and two recordings. *)
Definition history : list call :=
  [CreateBenchmarkTest "tax_preparation" ∅ "high" 1700000000.2 Examples.stamp0;
   RunAiBenchmark Examples.the_id ∅ 5 Examples.stamp2;
   CreateBenchmarkTest "research" ∅ "high" 1700000100.9 Examples.stamp2;
   RecordHumanResults Examples.the_id Examples.human_3h Examples.stamp3].

End MoreExamples.

(** * Properties *)

(** ** Operators *)

Lemma Qltb_lt (x y : Q) : Qltb x y = true <-> x < y.
Proof.
  unfold Qltb. rewrite negb_true_iff. split.
  - intros H. apply Qnot_le_lt. intros Hle.
    apply Qle_bool_iff in Hle. congruence.
  - intros H. destruct (Qle_bool y x) eqn:E; [|reflexivity].
    apply Qle_bool_iff in E. exfalso. exact (Qlt_not_le _ _ H E).
Qed.

Lemma Qltb_nlt (x y : Q) : Qltb x y = false <-> ~ x < y.
Proof.
  rewrite <- Qltb_lt. destruct (Qltb x y); split; congruence.
Qed.

Lemma rbind_Ok {A B : Type} (r : result A) (k : A -> result B) (b : B) :
  rbind r k = Ok b -> exists a, r = Ok a /\ k a = Ok b.
Proof. destruct r as [a|e]; simpl; [eauto | discriminate]. Qed.

Lemma get_Some (d : dict) (k : string) (dflt v : value) :
  d !! k = Some v -> get (Some d) k dflt = Ok v.
Proof. intros H. simpl. by rewrite H. Qed.

(** ** Lookup by id *)

Lemma _get_test_Some self id i t :
  _get_test self id = Some (i, t) ->
  tests self !! i = Some t /\ test_id t = id.
Proof.
  unfold _get_test. intros H. apply list_find_Some in H. tauto.
Qed.

Lemma _get_test_None self id :
  _get_test self id = None <-> forall t, t ∈ tests self -> test_id t <> id.
Proof.
  unfold _get_test. rewrite list_find_None, Forall_forall. reflexivity.
Qed.

Lemma lookup_store_eq self i t t0 :
  tests self !! i = Some t0 -> tests (store self i t) !! i = Some t.
Proof.
  intros H. simpl. apply list_lookup_insert_eq. by eapply lookup_lt_Some.
Qed.

Lemma lookup_store_ne self i j t :
  i <> j -> tests (store self i t) !! j = tests self !! j.
Proof. intros H. simpl. by apply list_lookup_insert_ne. Qed.

(** ** Unknown identifiers *)

(** C10. When no test of the registry carries the id, [run_ai_benchmark]
    and [record_human_results] both return the dict
    [{"error": "Test not found"}] and leave the registry as it was: the
    same list of tests, with every field of every test unchanged. *)
Theorem unknown_id_no_effect self id ai_agents elapsed hr now :
  (forall t, t ∈ tests self -> test_id t <> id) ->
  run_ai_benchmark self id ai_agents elapsed now = (not_found, self) /\
  record_human_results self id hr now = (Ok (ErrorDict not_found), self) /\
  not_found !! "error" = Some (VStr "Test not found").
Proof.
  intros Hid. apply _get_test_None in Hid.
  unfold run_ai_benchmark, record_human_results. rewrite Hid.
  repeat split.
Qed.

Lemma unknown_id_no_effect_witness :
  run_ai_benchmark Examples.created "bench_42" ∅ 5 Examples.stamp2
    = (not_found, Examples.created) /\
  record_human_results Examples.created "bench_42" Examples.human_3h Examples.stamp2
    = (Ok (ErrorDict not_found), Examples.created).
Proof.
  destruct (unknown_id_no_effect Examples.created "bench_42" ∅ 5
              Examples.human_3h Examples.stamp2) as (H1 & H2 & _).
  - intros t Ht. apply list_elem_of_In in Ht. simpl in Ht.
    destruct Ht as [<-|[]]. vm_compute. discriminate.
  - split; [exact H1 | exact H2].
Defined.

(** ** The comparison *)

Ltac invert_binds H :=
  repeat (apply rbind_Ok in H; destruct H as (? & ? & H)).

(** C5. Whatever the two metric records are, a comparison that is
    computed has ["AI"] as its [overall_winner]. *)
Theorem overall_winner_fixed t c :
  _calculate_comparison t = Ok c -> overall_winner c = "AI".
Proof.
  intros H. unfold _calculate_comparison in H.
  invert_binds H. injection H as <-. reflexivity.
Qed.

Lemma overall_winner_fixed_witness :
  exists c,
    _calculate_comparison (Examples.test_with Examples.tie Examples.tie) = Ok c /\
    speed_advantage c = "Human" /\
    winner (accuracy_comparison c) = "Human" /\
    overall_winner c = "AI".
Proof.
  eexists. split; [vm_compute; reflexivity|].
  split; [reflexivity|]. split; [reflexivity|].
  apply (overall_winner_fixed (Examples.test_with Examples.tie Examples.tie)).
  vm_compute. reflexivity.
Defined.

Lemma py_max_num (x f : Q) : py_max (VNum x) (VNum f) = Ok (VNum (Qmax x f)).
Proof.
  unfold py_max, py_gt. cbn [rbind]. f_equal.
  unfold Qmax, GenericMinMax.gmax.
  destruct (Qltb x f) eqn:E.
  - apply Qltb_lt in E. rewrite (proj1 (Qlt_alt _ _) E). reflexivity.
  - apply Qltb_nlt in E. destruct (x ?= f)%Q eqn:C; try reflexivity.
    exfalso. apply E. by apply Qlt_alt.
Qed.

Lemma floor_positive (x : Q) : 0 < Qmax x 0.1.
Proof.
  apply Qlt_le_trans with (y := 0.1); [reflexivity | apply Q.le_max_r].
Qed.

Lemma floor_nonzero (x : Q) : Qeq_bool (Qmax x 0.1) 0 = false.
Proof.
  destruct (Qeq_bool (Qmax x 0.1) 0) eqn:E; [|reflexivity].
  apply Qeq_bool_iff in E. pose proof (floor_positive x) as H.
  rewrite E in H. discriminate H.
Qed.

(** The speed entries of a computed comparison, when both records hold a
    numeric ["time_taken"]. *)
Lemma calc_times t a h x y c :
  ai_results t = Some a -> human_results t = Some h ->
  a !! "time_taken" = Some (VNum x) -> h !! "time_taken" = Some (VNum y) ->
  _calculate_comparison t = Ok c ->
  speed_advantage c = (if Qltb x y then "AI" else "Human") /\
  speed_multiplier c = y / Qmax x 0.1.
Proof.
  intros Ha Hh Hx Hy H. unfold _calculate_comparison in H.
  rewrite Ha, Hh in H.
  rewrite !(get_Some a "time_taken" _ _ Hx),
          !(get_Some h "time_taken" _ _ Hy) in H.
  cbn [rbind py_lt] in H. rewrite py_max_num in H.
  cbn [rbind py_truediv] in H. rewrite floor_nonzero in H.
  cbn [rbind] in H.
  invert_binds H. injection H as <-. simpl. done.
Qed.

(** The accuracy selector of a computed comparison, when both records
    hold a numeric ["accuracy_score"]; the ["time_taken"] entries may be
    numbers or missing. *)
Lemma calc_accuracy t a h p q c :
  ai_results t = Some a -> human_results t = Some h ->
  a !! "accuracy_score" = Some (VNum p) ->
  h !! "accuracy_score" = Some (VNum q) ->
  _calculate_comparison t = Ok c ->
  winner (accuracy_comparison c) = (if Qltb q p then "AI" else "Human").
Proof.
  intros Ha Hh Hp Hq H. unfold _calculate_comparison in H.
  rewrite Ha, Hh in H. unfold get in H. rewrite Hp, Hq in H.
  destruct (a !! "time_taken") as [[x|sx]|];
    destruct (h !! "time_taken") as [[y|sy]|];
    cbn [default from_option id rbind py_lt py_gt py_mul_float] in H;
    rewrite ?py_max_num in H; cbn [rbind py_truediv py_max py_gt] in H;
    rewrite ?floor_nonzero in H;
    change (Qeq_bool 3600 0) with false in H;
    cbn [rbind py_lt py_gt py_mul_float py_truediv] in H;
    try discriminate H; injection H as <-; reflexivity.
Qed.

(** A selector built from a strict comparison names the AI exactly when
    the comparison holds, and the human otherwise. *)
Lemma strict_selector (u v : Q) :
  ((if Qltb u v then "AI" else "Human") = "AI" <-> u < v) /\
  (~ u < v -> (if Qltb u v then "AI" else "Human") = "Human").
Proof.
  destruct (Qltb u v) eqn:E.
  - apply Qltb_lt in E. split; [tauto | intros Hn; contradiction].
  - apply Qltb_nlt in E. split; [|reflexivity].
    split; [discriminate | intros Hlt; contradiction].
Qed.

(** C7. In a computed comparison, when both records hold a non-negative
    numeric ["time_taken"], [speed_multiplier] is the human time divided
    by the larger of the AI time and the floor [0.1], and it is not
    negative. *)
Theorem speed_multiplier_formula t a h x y c :
  _calculate_comparison t = Ok c ->
  ai_results t = Some a -> human_results t = Some h ->
  a !! "time_taken" = Some (VNum x) -> h !! "time_taken" = Some (VNum y) ->
  0 <= x -> 0 <= y ->
  speed_multiplier c = y / Qmax x 0.1 /\ 0 <= speed_multiplier c.
Proof.
  intros H Ha Hh Hx Hy _ Hy0.
  destruct (calc_times t a h x y c Ha Hh Hx Hy H) as [_ ->].
  split; [reflexivity|].
  apply Qle_shift_div_l; [apply floor_positive|].
  by rewrite Qmult_0_l.
Qed.

Lemma speed_multiplier_formula_witness :
  exists c,
    _calculate_comparison (Examples.test_with Examples.ai_5s Examples.human_3h) = Ok c /\
    speed_multiplier c = 10800 / Qmax 5 0.1 /\ 0 <= speed_multiplier c.
Proof.
  eexists. split; [vm_compute; reflexivity|].
  apply (speed_multiplier_formula
           (Examples.test_with Examples.ai_5s Examples.human_3h)
           Examples.ai_5s Examples.human_3h 5 10800);
    try reflexivity; vm_compute; discriminate.
Defined.

(** C8. In every computed comparison: when both records hold a numeric
    ["time_taken"], [speed_advantage] is ["AI"] exactly when the AI time
    is strictly lower than the human time; when both records hold a
    numeric ["accuracy_score"], the accuracy [winner] is ["AI"] exactly
    when the AI score is strictly greater than the human score.  Each
    selector is ["Human"] otherwise, and so in particular on equality.
    Each selector needs its own metric only: the speed part holds whether
    or not the records carry an accuracy score, and conversely. *)
Theorem ties_favor_human t a h c :
  _calculate_comparison t = Ok c ->
  ai_results t = Some a -> human_results t = Some h ->
  (forall x y,
     a !! "time_taken" = Some (VNum x) -> h !! "time_taken" = Some (VNum y) ->
     (speed_advantage c = "AI" <-> x < y) /\
     (~ x < y -> speed_advantage c = "Human") /\
     (x == y -> speed_advantage c = "Human")) /\
  (forall p q,
     a !! "accuracy_score" = Some (VNum p) ->
     h !! "accuracy_score" = Some (VNum q) ->
     (winner (accuracy_comparison c) = "AI" <-> q < p) /\
     (~ q < p -> winner (accuracy_comparison c) = "Human") /\
     (p == q -> winner (accuracy_comparison c) = "Human")).
Proof.
  intros H Ha Hh. split.
  - intros x y Hx Hy.
    destruct (calc_times t a h x y c Ha Hh Hx Hy H) as [-> _].
    destruct (strict_selector x y) as [Hs1 Hs2].
    split; [exact Hs1|]. split; [exact Hs2|].
    intros E. apply Hs2. rewrite E. apply Qlt_irrefl.
  - intros p q Hp Hq.
    rewrite (calc_accuracy t a h p q c Ha Hh Hp Hq H).
    destruct (strict_selector q p) as [Hs1 Hs2].
    split; [exact Hs1|]. split; [exact Hs2|].
    intros E. apply Hs2. rewrite E. apply Qlt_irrefl.
Qed.

Lemma ties_favor_human_witness :
  (exists c,
     _calculate_comparison
       (Examples.test_with MoreExamples.research_60 Examples.tie) = Ok c /\
     MoreExamples.research_60 !! "accuracy_score" = None /\
     speed_advantage c = "Human") /\
  (exists c,
     _calculate_comparison (Examples.test_with Examples.tie Examples.tie) = Ok c /\
     speed_advantage c = "Human" /\
     winner (accuracy_comparison c) = "Human").
Proof.
  split.
  - eexists. split; [vm_compute; reflexivity|]. split; [reflexivity|].
    destruct (ties_favor_human
                (Examples.test_with MoreExamples.research_60 Examples.tie)
                MoreExamples.research_60 Examples.tie _
                eq_refl eq_refl eq_refl) as [Hs _].
    destruct (Hs 60 60 eq_refl eq_refl) as (_ & _ & Htie).
    apply Htie. reflexivity.
  - eexists. split; [vm_compute; reflexivity|].
    destruct (ties_favor_human (Examples.test_with Examples.tie Examples.tie)
                Examples.tie Examples.tie _ eq_refl eq_refl eq_refl)
      as [Hs Hw].
    destruct (Hs 60 60 eq_refl eq_refl) as (_ & _ & Hs').
    destruct (Hw 0.9 0.9 eq_refl eq_refl) as (_ & _ & Hw').
    split; [apply Hs' | apply Hw']; reflexivity.
Defined.

(** ** The leaderboard *)

Lemma foldl_add_ones {A : Type} (l : list A) (z : Z) :
  foldl Z.add z ((fun _ => 1%Z) <$> l) = (z + Z.of_nat (length l))%Z.
Proof.
  revert z. induction l as [|x l IH]; intros z; simpl.
  - lia.
  - rewrite IH. lia.
Qed.

Lemma sum_Z_ones {A : Type} (l : list A) :
  sum_Z ((fun _ => 1%Z) <$> l) = Z.of_nat (length l).
Proof. unfold sum_Z. rewrite foldl_add_ones. lia. Qed.

Lemma winner_of_AI t :
  winner_of t = Some "AI" <->
  exists c, comparison t = Some c /\ overall_winner c = "AI".
Proof.
  unfold winner_of. destruct (comparison t) as [c|]; simpl; split.
  - intros [= H]. eauto.
  - intros (c' & [= <-] & H). by rewrite H.
  - discriminate.
  - intros (c' & H & _). discriminate.
Qed.

(** Every test is either an AI win, or has no comparison, or has a
    comparison won by somebody else. *)
Lemma tests_partition (l : list test) :
  length l =
    (length (filter (fun t => winner_of t = Some "AI") l)
     + length (filter (fun t => comparison t = None) l)
     + length (filter (fun t => is_Some (comparison t)
                                /\ winner_of t <> Some "AI") l))%nat.
Proof.
  induction l as [|t l IH]; [reflexivity|].
  rewrite !filter_cons.
  destruct (decide (winner_of t = Some "AI")) as [Hw|Hw];
    destruct (decide (comparison t = None)) as [Hc|Hc];
    destruct (decide (is_Some (comparison t) /\ winner_of t <> Some "AI"))
      as [Hb|Hb]; simpl; try lia.
  - unfold winner_of in Hw. rewrite Hc in Hw. discriminate.
  - unfold winner_of in Hw. rewrite Hc in Hw. discriminate.
  - tauto.
  - destruct Hb as [[c Hc'] _]. congruence.
  - exfalso. apply Hb. split; [|exact Hw].
    destruct (comparison t); [eauto | congruence].
Qed.

(** C6. The leaderboard reports [human_wins = total_tests - ai_wins],
    where [total_tests] counts all tests and [ai_wins] those whose stored
    comparison has [overall_winner = "AI"]; hence [human_wins] is the
    number of tests without a comparison plus the number of tests whose
    comparison names another winner: every test without a comparison is
    counted as a human win. *)
Theorem leaderboard_human_wins (format_1f : Q -> string) self :
  let lb := get_leaderboard format_1f self in
  human_wins lb = (total_tests lb - ai_wins lb)%Z /\
  total_tests lb = Z.of_nat (length (tests self)) /\
  ai_wins lb =
    Z.of_nat (length (filter (fun t => winner_of t = Some "AI") (tests self))) /\
  (forall t, winner_of t = Some "AI" <->
             exists c, comparison t = Some c /\ overall_winner c = "AI") /\
  human_wins lb =
    (Z.of_nat (length (filter (fun t => comparison t = None) (tests self)))
     + Z.of_nat (length (filter (fun t => is_Some (comparison t)
                                          /\ winner_of t <> Some "AI")
                                (tests self))))%Z.
Proof.
  simpl. rewrite sum_Z_ones.
  repeat split; try apply winner_of_AI.
  rewrite (tests_partition (tests self)) at 1. lia.
Qed.

Lemma leaderboard_human_wins_witness :
  let lb := get_leaderboard (fun _ => "") Examples.one_of_two in
  total_tests lb = 2%Z /\ ai_wins lb = 1%Z /\ human_wins lb = 1%Z /\
  length (filter (fun t => comparison t = None) (tests Examples.one_of_two)) = 1%nat.
Proof.
  destruct (leaderboard_human_wins (fun _ => "") Examples.one_of_two)
    as (H1 & H2 & H3 & _ & H5).
  cbv zeta. rewrite H5. repeat split.
Defined.

Lemma ai_wins_le_total (format_1f : Q -> string) self :
  let lb := get_leaderboard format_1f self in
  (0 <= ai_wins lb <= total_tests lb)%Z.
Proof.
  simpl. rewrite sum_Z_ones.
  pose proof (length_filter (fun t => winner_of t = Some "AI") (tests self)).
  lia.
Qed.

(** C9. The leaderboard's [total_tests] is the number of tests of the
    registry, its [ai_wins] the number of those whose stored comparison
    has [overall_winner = "AI"], and its [ai_win_rate] is
    [ai_wins / max(total_tests, 1)]; the rate lies between 0 and 1, it is
    [ai_wins / total_tests] when there is at least one test, and it is 0
    on a registry without tests. *)
Theorem ai_win_rate_bounds (format_1f : Q -> string) self :
  let lb := get_leaderboard format_1f self in
  let total := Z.of_nat (length (tests self)) in
  let wins :=
    Z.of_nat (length (filter (fun t => winner_of t = Some "AI") (tests self))) in
  total_tests lb = total /\
  ai_wins lb = wins /\
  ai_win_rate lb = inject_Z wins / inject_Z (Z.max total 1) /\
  ai_win_rate lb = inject_Z (ai_wins lb) / inject_Z (Z.max (total_tests lb) 1) /\
  0 <= ai_win_rate lb /\ ai_win_rate lb <= 1 /\
  ((0 < total)%Z -> ai_win_rate lb = inject_Z wins / inject_Z total) /\
  ((0 < total_tests lb)%Z ->
   ai_win_rate lb = inject_Z (ai_wins lb) / inject_Z (total_tests lb)) /\
  (tests self = [] -> ai_win_rate lb == 0).
Proof.
  pose proof (ai_wins_le_total format_1f self) as Hb.
  cbv zeta in *.
  set (lb := get_leaderboard format_1f self) in *.
  assert (Ht : total_tests lb = Z.of_nat (length (tests self))) by reflexivity.
  assert (Hw : ai_wins lb
               = Z.of_nat (length (filter (fun t => winner_of t = Some "AI")
                                          (tests self)))).
  { subst lb. cbn [get_leaderboard ai_wins]. apply sum_Z_ones. }
  assert (Hr : ai_win_rate lb
               = inject_Z (ai_wins lb) / inject_Z (Z.max (total_tests lb) 1))
    by reflexivity.
  assert (Hm : 0 < inject_Z (Z.max (total_tests lb) 1)).
  { change 0 with (inject_Z 0). rewrite <- Zlt_Qlt. lia. }
  split; [exact Ht|]. split; [exact Hw|].
  split; [by rewrite Hr, Hw, Ht|]. split; [exact Hr|].
  split; [|split; [|split; [|split]]].
  - rewrite Hr. apply Qle_shift_div_l; [exact Hm|]. rewrite Qmult_0_l.
    change 0 with (inject_Z 0). rewrite <- Zle_Qle. lia.
  - rewrite Hr. apply Qle_shift_div_r; [exact Hm|]. rewrite Qmult_1_l.
    rewrite <- Zle_Qle. lia.
  - intros Hpos. rewrite Hr, Hw, Ht. by rewrite Z.max_l by lia.
  - intros Hpos. rewrite Hr. by rewrite Z.max_l by lia.
  - intros Hnil. rewrite Hr, Hw, Hnil. reflexivity.
Qed.

Lemma ai_win_rate_bounds_witness :
  (let lb := get_leaderboard (fun _ => "") Examples.one_of_two in
   (0 < Z.of_nat (length (tests Examples.one_of_two)))%Z /\
   total_tests lb = 2%Z /\ ai_wins lb = 1%Z /\
   ai_win_rate lb = inject_Z 1 / inject_Z 2) /\
  ai_win_rate (get_leaderboard (fun _ => "") init) == 0.
Proof.
  split.
  - destruct (ai_win_rate_bounds (fun _ => "") Examples.one_of_two)
      as (H1 & H2 & _ & _ & _ & _ & H7 & _).
    cbv zeta. split; [reflexivity|].
    split; [exact H1|]. split; [exact H2|].
    apply H7. reflexivity.
  - apply (ai_win_rate_bounds (fun _ => "") init). reflexivity.
Defined.

(** ** Identifiers *)

Lemma to_int_normal (n : Z) : Z.to_int n = Decimal.norm (Z.to_int n).
Proof. rewrite <- DecimalZ.to_of. by rewrite DecimalZ.of_to. Qed.

Lemma py_str_int_inj (n m : Z) : py_str_int n = py_str_int m -> n = m.
Proof.
  unfold py_str_int. intros H.
  assert (Hn : forall k, NilZero.int_of_string (NilZero.string_of_int (Z.to_int k))
                         = Some (Z.to_int k)).
  { intros k. apply NilZero.isi; intros E;
      pose proof (to_int_normal k) as N; rewrite E in N; discriminate N. }
  apply DecimalZ.to_int_inj.
  pose proof (Hn n) as H1. rewrite H, Hn in H1. congruence.
Qed.

(** The identifier of a new test is determined by the second in which it
    is created, and by nothing else. *)
Lemma create_id_eq_iff self self' ty ty' sc sc' cx cx' clock clock' now now' :
  test_id (create_benchmark_test self ty sc cx clock now).1
    = test_id (create_benchmark_test self' ty' sc' cx' clock' now').1
  <-> py_int clock = py_int clock'.
Proof.
  simpl. split.
  - intros [= H]. by apply py_str_int_inj.
  - by intros ->.
Qed.

(** C2 (the code does not keep identifiers distinct).  Two tests created
    within the same second, at [time.time()] equal to [1700000000.2] and
    to [1700000000.7], are both stored, differ, and carry the same
    identifier; a lookup by that identifier finds the first of them only. *)
Theorem ids_collide_within_a_second :
  exists t1 t2,
    tests Examples.created_twice = [t1; t2] /\
    t1 <> t2 /\
    test_id t1 = "bench_1700000000" /\
    test_id t2 = "bench_1700000000" /\
    _get_test Examples.created_twice (test_id t2) = Some (0%nat, t1).
Proof.
  do 2 eexists. split; [reflexivity|].
  split; [intros [= H]; discriminate H|].
  repeat split.
Qed.

(** ** What one call does to one test *)

Lemma store_store self i t t' :
  tests (store (store self i t) i t') = <[i := t']> (tests self).
Proof. simpl. apply list_insert_insert_eq. Qed.

(** A call either appends a pending test, or changes nothing, or rewrites
    the test it is addressed to. *)
Lemma step_tests self c :
  (exists ty sc cx clock now,
      c = CreateBenchmarkTest ty sc cx clock now /\
      tests (step self c)
        = (tests self ++ [(create_benchmark_test self ty sc cx clock now).1])%list) \/
  (target self c = None /\ step self c = self) \/
  (exists i t t',
      target self c = Some i /\ tests self !! i = Some t /\
      evolves t c t' /\ tests (step self c) = <[i := t']> (tests self)).
Proof.
  destruct c as [ty sc cx clock now | id ag el now | id hr now]; simpl.
  - left. by exists ty, sc, cx, clock, now.
  - right. unfold run_ai_benchmark.
    destruct (_get_test self id) as [[i t]|] eqn:E; simpl; [right | by left].
    apply _get_test_Some in E as [Hi _].
    exists i, t, (ai_recorded t el now). repeat split; try done. constructor.
  - right. unfold record_human_results.
    destruct (_get_test self id) as [[i t]|] eqn:E; simpl; [right | by left].
    apply _get_test_Some in E as [Hi _].
    fold (human_recorded t hr now).
    destruct (_calculate_comparison (human_recorded t hr now)) as [c|e] eqn:Ec.
    + exists i, t, (set_comparison (human_recorded t hr now) c).
      repeat split; try done.
      * by constructor.
      * simpl. apply list_insert_insert_eq.
    + exists i, t, (human_recorded t hr now). repeat split; try done.
      by econstructor.
Qed.

(** Tests keep their position; the test at a position is either left
    alone or rewritten by the call addressed to it. *)
Lemma step_lookup self c i t :
  tests self !! i = Some t ->
  exists t', tests (step self c) !! i = Some t' /\
             (t' = t \/ (target self c = Some i /\ evolves t c t')) /\
             (target self c <> Some i -> t' = t).
Proof.
  intros Hi.
  destruct (step_tests self c)
    as [(ty & sc & cx & clock & now & -> & Ht)
       | [[Hn ->] | (j & u & u' & Hj & Hu & He & Ht)]].
  - exists t. rewrite Ht. split; [|by auto].
    apply lookup_app_l_Some. exact Hi.
  - exists t. auto.
  - rewrite Ht. destruct (decide (j = i)) as [->|Hne].
    + exists u'. rewrite list_lookup_insert_eq by (by eapply lookup_lt_Some).
      split; [reflexivity|]. split; [|congruence].
      right. split; [exact Hj|]. congruence.
    + exists t. rewrite list_lookup_insert_ne by done.
      split; [exact Hi|]. auto.
Qed.

(** ** A human result recorded before the AI result *)

(** Without an AI result the comparison cannot be computed: [None] has no
    [get]. *)
Lemma calc_without_ai_raises t :
  ai_results t = None -> _calculate_comparison t = Raise AttributeError.
Proof. intros H. unfold _calculate_comparison. by rewrite H. Qed.

(** C1 (as the code has it).  [record_human_results] does not check that
    an AI result exists: on a test found by its id whose [ai_results] is
    still [None], it stores the given record as [human_results], stamps
    [human_completed_at] and sets [status] to ["completed"]; the other
    creation-time fields, the absent AI result and every other test are
    left as they were. *)
Theorem human_result_recorded_without_guard self id hr now i t :
  _get_test self id = Some (i, t) ->
  ai_results t = None ->
  exists t',
    tests (record_human_results self id hr now).2 !! i = Some t' /\
    human_results t' = Some hr /\
    human_completed_at t' = Some now /\
    status t' = "completed" /\
    test_id t' = test_id t /\ test_type t' = test_type t /\
    scenario t' = scenario t /\ complexity t' = complexity t /\
    created_at t' = created_at t /\
    ai_results t' = None /\ ai_completed_at t' = ai_completed_at t /\
    (forall j, j <> i ->
       tests (record_human_results self id hr now).2 !! j = tests self !! j).
Proof.
  intros Hget Hai. pose proof Hget as Hget'.
  apply _get_test_Some in Hget' as [Hi _].
  unfold record_human_results. rewrite Hget.
  fold (human_recorded t hr now).
  destruct (_calculate_comparison (human_recorded t hr now)) as [c|e];
    cbn [snd].
  - exists (set_comparison (human_recorded t hr now) c).
    rewrite store_store.
    rewrite list_lookup_insert_eq by (by eapply lookup_lt_Some).
    repeat split; try done.
    intros j Hj. by rewrite list_lookup_insert_ne.
  - exists (human_recorded t hr now).
    rewrite (lookup_store_eq self i _ t Hi).
    repeat split; try done.
    intros j Hj. by apply lookup_store_ne.
Qed.

Lemma human_result_recorded_without_guard_witness :
  exists t',
    tests Examples.human_first !! 0%nat = Some t' /\
    human_results t' = Some Examples.human_3h /\
    status t' = "completed" /\
    ai_results t' = None.
Proof.
  destruct (human_result_recorded_without_guard Examples.created
              Examples.the_id Examples.human_3h Examples.stamp2 0%nat
              (create_benchmark_test init "tax_preparation" ∅ "high"
                 1700000000.2 Examples.stamp0).1)
    as (t' & H1 & H2 & _ & H4 & _ & _ & _ & _ & _ & H10 & _);
    [reflexivity | reflexivity |].
  exists t'. repeat split; assumption.
Defined.

(** Against C1 as stated.  On the history "create, then record the human
    result", the test has no AI result, the call raises [AttributeError] (the code has no
    exception of its own), and the human result is stored all the same:
    the test is not left unchanged. *)
Lemma human_before_ai_is_recorded :
  ai_results <$> tests Examples.created !! 0%nat = Some None /\
  human_results <$> tests Examples.created !! 0%nat = Some None /\
  fst <$> _get_test Examples.created Examples.the_id = Some 0%nat /\
  (record_human_results Examples.created Examples.the_id
     Examples.human_3h Examples.stamp2).1 = Raise AttributeError /\
  human_results <$>
    tests (record_human_results Examples.created Examples.the_id
             Examples.human_3h Examples.stamp2).2 !! 0%nat
    = Some (Some Examples.human_3h) /\
  tests (record_human_results Examples.created Examples.the_id
           Examples.human_3h Examples.stamp2).2
    <> tests Examples.created.
Proof.
  repeat split. intros H. discriminate H.
Qed.

(** ** Overwriting *)




(** ** Status *)

Lemma evolves_status t c t' :
  evolves t c t' -> status_tracks_human t -> status_tracks_human t'.
Proof.
  intros [] [H1 H2]; split; simpl; try done.
Qed.

Lemma evolves_completed t c t' :
  evolves t c t' -> status t = "completed" -> status t' = "completed".
Proof. intros []; simpl; done. Qed.

Lemma reachable_status self :
  reachable self -> Forall status_tracks_human (tests self).
Proof.
  induction 1 as [|self c _ IH]; [constructor|].
  destruct (step_tests self c)
    as [(ty & sc & cx & clock & now & -> & Ht)
       | [[_ ->] | (j & u & u' & _ & Hu & He & Ht)]].
  - rewrite Ht. apply Forall_app. split; [exact IH|].
    constructor; [|constructor]. split; simpl; [done|].
    intros [x Hx]. discriminate Hx.
  - exact IH.
  - rewrite Ht. apply Forall_insert; [exact IH|].
    eapply evolves_status; [exact He|].
    eapply Forall_lookup_1; eauto.
Qed.

Lemma step_completed self c i t :
  tests self !! i = Some t -> status t = "completed" ->
  exists t', tests (step self c) !! i = Some t' /\ status t' = "completed".
Proof.
  intros Hi Hs.
  destruct (step_lookup self c i t Hi) as (t' & Ht' & [->|[_ He]] & _).
  - eauto.
  - exists t'. split; [exact Ht'|]. by eapply evolves_completed.
Qed.

(** C4 (as the code has it).  In every registry a history of calls leads
    to, a test is ["pending"] as long as its [human_results] is [None]
    and ["completed"] once [human_results] is set, whether or not
    [ai_results] is set; in particular it is ["completed"] when both are
    set.  A ["completed"] test stays ["completed"] under every further
    history of calls. *)
Theorem status_tracks_human_result self :
  reachable self ->
  (forall t, t ∈ tests self ->
     (human_results t = None -> status t = "pending") /\
     (is_Some (human_results t) -> status t = "completed") /\
     (is_Some (ai_results t) -> is_Some (human_results t) ->
      status t = "completed")) /\
  (forall cs i t,
     tests self !! i = Some t -> status t = "completed" ->
     exists t', tests (run self cs) !! i = Some t' /\ status t' = "completed").
Proof.
  intros Hr. split.
  - intros t Ht. apply reachable_status in Hr.
    rewrite Forall_forall in Hr. destruct (Hr t Ht) as [H1 H2]. auto.
  - clear Hr. intros cs. revert self.
    induction cs as [|c cs IH]; intros self i t Hi Hs; simpl.
    + eauto.
    + destruct (step_completed self c i t Hi Hs) as (t1 & Ht1 & Hs1).
      exact (IH (step self c) i t1 Ht1 Hs1).
Qed.

Lemma status_tracks_human_result_witness :
  reachable Examples.one_of_two /\
  status <$> tests Examples.one_of_two !! 0%nat = Some "completed" /\
  status <$> tests Examples.one_of_two !! 1%nat = Some "pending" /\
  exists t',
    tests (run Examples.one_of_two
             [RunAiBenchmark Examples.the_id ∅ 9 Examples.stamp3]) !! 0%nat
      = Some t' /\
    status t' = "completed".
Proof.
  assert (Hr : reachable Examples.one_of_two) by (repeat constructor).
  split; [exact Hr|]. split; [reflexivity|]. split; [reflexivity|].
  destruct (status_tracks_human_result Examples.one_of_two Hr) as [_ H].
  destruct (tests Examples.one_of_two !! 0%nat) as [t|] eqn:E;
    [|discriminate E].
  apply (H [RunAiBenchmark Examples.the_id ∅ 9 Examples.stamp3] 0%nat t E).
  revert E. vm_compute. intros [= <-]. reflexivity.
Defined.

(** Against C4 as stated.  On the history "create, then record the human
    result" the test has no AI result and its status is ["completed"], not ["pending"]. *)
Lemma completed_without_ai_result :
  reachable Examples.human_first /\
  ai_results <$> tests Examples.human_first !! 0%nat = Some None /\
  status <$> tests Examples.human_first !! 0%nat = Some "completed" /\
  "completed" <> "pending".
Proof.
  split; [repeat constructor|]. repeat split. intros H. discriminate H.
Qed.

(** * Further properties of the benchmarking system *)

(** ** Histories: creation order, identifiers, lookups *)

Lemma evolves_creation_fields t c t' :
  evolves t c t' -> creation_fields t' = creation_fields t.
Proof. by intros []. Qed.

Lemma step_creation_fields self c :
  creation_fields <$> tests (step self c)
  = ((creation_fields <$> tests self) ++ (creation_fields <$> creations [c]))%list.
Proof.
  destruct (step_tests self c)
    as [(ty & sc & cx & clock & now & -> & Ht)
       | [[Hn Hs] | (j & u & u' & Hj & Hu & He & Ht)]].
  - rewrite Ht, fmap_app. reflexivity.
  - destruct c as [ty sc cx clock now | |].
    + simpl. by rewrite fmap_app.
    + rewrite Hs. simpl. by rewrite app_nil_r.
    + rewrite Hs. simpl. by rewrite app_nil_r.
  - rewrite Ht, list_fmap_insert.
    rewrite (evolves_creation_fields _ _ _ He).
    rewrite list_insert_id by (by rewrite list_lookup_fmap, Hu).
    destruct He; simpl; by rewrite app_nil_r.
Qed.

Lemma step_results self c : results (step self c) = results self.
Proof.
  destruct c as [ty sc cx clock now | id ag el now | id hr now]; simpl.
  - reflexivity.
  - unfold run_ai_benchmark. by destruct (_get_test self id) as [[i t]|].
  - unfold record_human_results.
    destruct (_get_test self id) as [[i t]|]; [|done].
    by destruct (_calculate_comparison _).
Qed.

Lemma creations_cons c cs : creations (c :: cs) = (creations [c] ++ creations cs)%list.
Proof. unfold creations. simpl. by destruct c. Qed.

Lemma run_creation_fields self cs :
  creation_fields <$> tests (run self cs)
    = ((creation_fields <$> tests self) ++ (creation_fields <$> creations cs))%list /\
  results (run self cs) = results self.
Proof.
  revert self. induction cs as [|c cs IH]; intros self.
  - simpl. by rewrite app_nil_r.
  - change (run self (c :: cs)) with (run (step self c) cs).
    destruct (IH (step self c)) as [IH1 IH2].
    rewrite IH1, IH2, step_creation_fields, step_results.
    split; [|done]. rewrite (creations_cons c cs), fmap_app. by rewrite app_assoc.
Qed.

(** [get_all_tests] lists the tests in the order of their creation: after
    any history of calls it holds the tests that were there, followed by
    one test per [create_benchmark_test] call, each with the id, type,
    scenario, complexity and creation time it was created with; no call
    removes or reorders tests or changes these five entries, and
    [self.results] is never written. *)
Theorem tests_kept_in_creation_order self cs :
  creation_fields <$> get_all_tests (run self cs)
    = ((creation_fields <$> tests self) ++ (creation_fields <$> creations cs))%list /\
  length (get_all_tests (run self cs))
    = (length (tests self) + length (creations cs))%nat /\
  results (run self cs) = results self.
Proof.
  destruct (run_creation_fields self cs) as [H1 H2].
  unfold get_all_tests. repeat split; try done.
  apply (f_equal length) in H1. rewrite length_app, !length_fmap in H1. exact H1.
Qed.

Lemma created_lookup self ty sc cx clock now :
  tests (create_benchmark_test self ty sc cx clock now).2 !! length (tests self)
  = Some (create_benchmark_test self ty sc cx clock now).1.
Proof. simpl. by rewrite lookup_app_r, Nat.sub_diag. Qed.

(** A test created under an id that no stored test carries is found by
    [_get_test] under that id, at the end of the list. *)
Theorem created_test_is_found self ty sc cx clock now :
  (forall u, u ∈ tests self ->
     test_id u <> test_id (create_benchmark_test self ty sc cx clock now).1) ->
  _get_test (create_benchmark_test self ty sc cx clock now).2
            (test_id (create_benchmark_test self ty sc cx clock now).1)
  = Some (length (tests self), (create_benchmark_test self ty sc cx clock now).1).
Proof.
  intros Hfresh. unfold _get_test. apply list_find_Some.
  split; [apply created_lookup|]. split; [reflexivity|].
  intros j y Hj Hlt. simpl in Hj. rewrite lookup_app_l in Hj by exact Hlt.
  apply Hfresh. eapply list_elem_of_lookup_2. exact Hj.
Qed.

Lemma created_test_is_found_witness :
  _get_test Examples.created_later "bench_1700000100"
  = Some (1%nat,
          (create_benchmark_test Examples.created "research" ∅ "high"
             1700000100.9 Examples.stamp2).1).
Proof.
  apply (created_test_is_found Examples.created "research" ∅ "high"
           1700000100.9 Examples.stamp2).
  intros u Hu. apply list_elem_of_In in Hu. simpl in Hu.
  destruct Hu as [<-|[]]. vm_compute. discriminate.
Defined.

Lemma shadowed_not_target self c j n u t :
  (j < n)%nat -> tests self !! j = Some u -> tests self !! n = Some t ->
  test_id u = test_id t -> target self c <> Some n.
Proof.
  intros Hlt Hj Hn Hid Htg.
  assert (H : forall id, fst <$> _get_test self id = Some n -> False).
  { intros id E. destruct (_get_test self id) as [[i x]|] eqn:G; [|discriminate E].
    injection E as ->. unfold _get_test in G. apply list_find_Some in G as (Hx & Hp & Hmin).
    rewrite Hn in Hx. injection Hx as <-.
    apply (Hmin j u Hj Hlt). congruence. }
  destruct c; simpl in Htg; [discriminate Htg | eauto | eauto].
Qed.

Lemma shadowed_stays cs : forall self j n u t,
  (j < n)%nat -> tests self !! j = Some u -> tests self !! n = Some t ->
  test_id u = test_id t -> tests (run self cs) !! n = Some t.
Proof.
  induction cs as [|c cs IH]; intros self j n u t Hlt Hj Hn Hid; [exact Hn|].
  change (run self (c :: cs)) with (run (step self c) cs).
  destruct (step_lookup self c n t Hn) as (t' & Ht' & _ & Hsame).
  rewrite (Hsame (shadowed_not_target self c j n u t Hlt Hj Hn Hid)) in Ht'.
  destruct (step_lookup self c j u Hj) as (u' & Hu' & Hcase & _).
  apply (IH (step self c) j n u' t Hlt Hu' Ht').
  destruct Hcase as [->|[_ He]]; [exact Hid|].
  apply evolves_creation_fields in He. unfold creation_fields in He. congruence.
Qed.

(** A test created under an id that an earlier test already carries is
    not the one a lookup of that id returns, and no later call ever
    changes it: it stays as it was created, whatever the history. *)
Theorem shadowed_test_is_never_touched self ty sc cx clock now j u cs :
  tests self !! j = Some u ->
  test_id u = test_id (create_benchmark_test self ty sc cx clock now).1 ->
  fst <$> _get_test (create_benchmark_test self ty sc cx clock now).2 (test_id u)
    <> Some (length (tests self)) /\
  tests (run (create_benchmark_test self ty sc cx clock now).2 cs)
    !! length (tests self)
  = Some (create_benchmark_test self ty sc cx clock now).1.
Proof.
  intros Hj Hid.
  assert (Hlt : (j < length (tests self))%nat) by (by eapply lookup_lt_Some).
  assert (Hj' : tests (create_benchmark_test self ty sc cx clock now).2 !! j = Some u).
  { simpl. by rewrite lookup_app_l. }
  split.
  - apply (shadowed_not_target _ (RunAiBenchmark (test_id u) ∅ 0 "") j _ u _ Hlt Hj'
             (created_lookup self ty sc cx clock now) Hid).
  - eapply shadowed_stays; [exact Hlt | exact Hj' | apply created_lookup | exact Hid].
Qed.

Lemma shadowed_test_is_never_touched_witness :
  tests (run Examples.created_twice
           [RunAiBenchmark Examples.the_id ∅ 5 Examples.stamp2;
            RecordHumanResults Examples.the_id Examples.human_3h Examples.stamp3])
    !! 1%nat
  = Some (create_benchmark_test Examples.created "research" ∅ "high"
            1700000000.7 Examples.stamp1).1.
Proof.
  apply (shadowed_test_is_never_touched Examples.created "research" ∅ "high"
           1700000000.7 Examples.stamp1 0%nat
           (create_benchmark_test init "tax_preparation" ∅ "high"
              1700000000.2 Examples.stamp0).1); reflexivity.
Defined.

Lemma creations_ids cs :
  test_id <$> creations cs
  = (fun z => "bench_" +:+ py_str_int z) <$> creation_seconds cs.
Proof.
  induction cs as [|cl cs IH]; [reflexivity|].
  destruct cl as [ty sc cx clock now| |].
  - change (creations (CreateBenchmarkTest ty sc cx clock now :: cs))
      with ((create_benchmark_test init ty sc cx clock now).1 :: creations cs).
    change (creation_seconds (CreateBenchmarkTest ty sc cx clock now :: cs))
      with (py_int clock :: creation_seconds cs).
    rewrite !fmap_cons, IH. reflexivity.
  - exact IH.
  - exact IH.
Qed.

(** On a fresh registry the ids of the stored tests are ["bench_"]
    followed by the decimal of the whole second of each creation, in
    order; they are pairwise distinct exactly when no two creations fall
    into the same second. *)
Theorem ids_distinct_iff_seconds_distinct cs :
  test_id <$> get_all_tests (run init cs)
    = (fun z => "bench_" +:+ py_str_int z) <$> creation_seconds cs /\
  (NoDup (test_id <$> get_all_tests (run init cs))
   <-> NoDup (creation_seconds cs)).
Proof.
  assert (E : test_id <$> get_all_tests (run init cs)
              = (fun z => "bench_" +:+ py_str_int z) <$> creation_seconds cs).
  { pose proof (run_creation_fields init cs) as [H _].
    apply (f_equal (fmap (fun p : string * string * dict * string * string
                          => p.1.1.1.1))) in H.
    rewrite fmap_app, <- !list_fmap_compose in H. simpl in H.
    rewrite <- creations_ids. exact H. }
  split; [exact E|]. rewrite E. split.
  - apply NoDup_fmap_1.
  - apply NoDup_fmap_2. intros z z' [= H]. by apply py_str_int_inj.
Qed.

Lemma ids_distinct_iff_seconds_distinct_witness :
  NoDup (creation_seconds MoreExamples.history) /\
  NoDup (test_id <$> get_all_tests (run init MoreExamples.history)).
Proof.
  assert (H : NoDup (creation_seconds MoreExamples.history)).
  { apply NoDup_cons. split.
    - intros Hin. apply list_elem_of_In in Hin. simpl in Hin.
      destruct Hin as [Hin|[]]. vm_compute in Hin. discriminate Hin.
    - apply NoDup_singleton. }
  split; [exact H|].
  apply (ids_distinct_iff_seconds_distinct MoreExamples.history). exact H.
Defined.

Lemma lookup_index self id :
  fst <$> _get_test self id
  = fst <$> list_find (fun s => s = id) (test_id <$> tests self).
Proof.
  unfold _get_test. rewrite list_find_fmap.
  destruct (list_find _ (tests self)) as [[i t]|]; reflexivity.
Qed.

(** Recording calls never change which test an id resolves to, and a
    creation does not change the resolution of an id that is already in
    use (its own included). *)
Theorem lookups_are_stable self id' :
  (forall id ai_agents elapsed now,
     fst <$> _get_test (step self (RunAiBenchmark id ai_agents elapsed now)) id'
     = fst <$> _get_test self id') /\
  (forall id hr now,
     fst <$> _get_test (step self (RecordHumanResults id hr now)) id'
     = fst <$> _get_test self id') /\
  (forall ty sc cx clock now,
     is_Some (_get_test self id') ->
     _get_test (step self (CreateBenchmarkTest ty sc cx clock now)) id'
     = _get_test self id').
Proof.
  assert (Hids : forall cl, creations [cl] = [] ->
            test_id <$> tests (step self cl) = test_id <$> tests self).
  { intros cl Hcl. pose proof (step_creation_fields self cl) as H.
    rewrite Hcl, fmap_nil, app_nil_r in H.
    apply (f_equal (fmap (fun p : string * string * dict * string * string => p.1.1.1.1))) in H.
    rewrite <- !list_fmap_compose in H. exact H. }
  split; [|split].
  - intros. rewrite !lookup_index, Hids; reflexivity.
  - intros. rewrite !lookup_index, Hids; reflexivity.
  - intros ty sc cx clock now [[i t] H]. rewrite H. unfold _get_test in *.
    cbn [step create_benchmark_test snd tests].
    by apply list_find_app_l.
Qed.

Lemma lookups_are_stable_witness :
  _get_test (step Examples.created
               (CreateBenchmarkTest "research" ∅ "high" 1700000000.7 Examples.stamp1))
            Examples.the_id
  = _get_test Examples.created Examples.the_id.
Proof.
  apply (lookups_are_stable Examples.created Examples.the_id).
  by eexists.
Defined.

(** ** The comparison: exceptions, defaults, costs *)

Lemma calc_missing t :
  ai_results t = None \/ human_results t = None ->
  _calculate_comparison t = Raise AttributeError.
Proof.
  unfold _calculate_comparison.
  destruct (ai_results t) as [a|]; [|done].
  destruct (human_results t) as [h|]; [|done].
  intros [H|H]; discriminate H.
Qed.

Lemma calc_outcome t a h :
  ai_results t = Some a -> human_results t = Some h ->
  if comparable a h
  then exists c, _calculate_comparison t = Ok c
  else _calculate_comparison t = Raise TypeError.
Proof.
  intros Ha Hh. unfold comparable. unfold _calculate_comparison. rewrite Ha, Hh.
  unfold get.
  destruct (a !! "time_taken") as [[x|sx]|];
  destruct (h !! "time_taken") as [[y|sy]|];
  destruct (a !! "accuracy_score") as [[p|sp]|];
  destruct (h !! "accuracy_score") as [[q|sq]|];
  cbn [default from_option id rbind py_lt py_gt py_mul_float is_str negb andb same_kind];
  rewrite ?py_max_num; cbn [rbind py_truediv py_max py_gt];
  rewrite ?floor_nonzero;
  change (Qeq_bool 3600 0) with false;
  cbn [rbind py_lt py_gt py_mul_float py_truediv]; try reflexivity; try (eexists; reflexivity).
Qed.

(** The entries of a computed comparison, in terms of the values the
    lookups with their defaults deliver. *)
Lemma calc_entries t a h c :
  _calculate_comparison t = Ok c ->
  ai_results t = Some a -> human_results t = Some h ->
  exists x0 x1 y999 y1 y0 faster better,
    default (VNum 0) (a !! "time_taken") = VNum x0 /\
    default (VNum 1) (a !! "time_taken") = VNum x1 /\
    default (VNum 999) (h !! "time_taken") = VNum y999 /\
    default (VNum 1) (h !! "time_taken") = VNum y1 /\
    default (VNum 0) (h !! "time_taken") = VNum y0 /\
    py_gt (default (VNum 0) (a !! "accuracy_score"))
          (default (VNum 0) (h !! "accuracy_score")) = Ok better /\
    faster = Qltb x0 y999 /\
    c = {| speed_advantage := if faster then "AI" else "Human";
           speed_multiplier := y1 / Qmax x1 0.1;
           accuracy_comparison :=
             {| ai := default (VNum 0) (a !! "accuracy_score");
                human := default (VNum 0) (h !! "accuracy_score");
                winner := if better then "AI" else "Human" |};
           cost_comparison :=
             {| ai_cost := x0 * 0.01;
                human_cost := y0 / 3600 * 150;
                savings := y0 / 3600 * 150 - x0 * 0.01 |};
           overall_winner := "AI" |}.
Proof.
  intros H Ha Hh. unfold _calculate_comparison in H. rewrite Ha, Hh in H.
  unfold get in H.
  destruct (a !! "time_taken") as [[x|sx]|];
  destruct (h !! "time_taken") as [[y|sy]|];
  destruct (a !! "accuracy_score") as [[p|sp]|];
  destruct (h !! "accuracy_score") as [[q|sq]|];
  cbn [default from_option id rbind py_lt py_gt py_mul_float] in H |- *;
  rewrite ?py_max_num in H; cbn [rbind py_truediv py_max py_gt] in H;
  rewrite ?floor_nonzero in H;
  change (Qeq_bool 3600 0) with false in H;
  cbn [rbind py_lt py_gt py_mul_float py_truediv] in H;
  try discriminate H;
  injection H as <-;
  do 7 eexists; repeat split.
Qed.

Lemma selector_AI (b : bool) :
  (if b then "AI" else "Human") = "AI" <-> b = true.
Proof. destruct b; split; (reflexivity || discriminate). Qed.

(** [_calculate_comparison] never raises [ZeroDivisionError]: the floor
    under the AI time keeps the divisor away from zero.  It raises
    [AttributeError] exactly when one of the two results is still [None]. *)
Theorem comparison_never_divides_by_zero t :
  _calculate_comparison t <> Raise ZeroDivisionError /\
  (_calculate_comparison t = Raise AttributeError <->
   ai_results t = None \/ human_results t = None).
Proof.
  destruct (ai_results t) as [a|] eqn:Ha; cycle 1.
  { rewrite (calc_missing t) by auto. split; [discriminate|]. split; auto. }
  destruct (human_results t) as [h|] eqn:Hh; cycle 1.
  { rewrite (calc_missing t) by auto. split; [discriminate|]. split; auto. }
  pose proof (calc_outcome t a h Ha Hh) as H.
  destruct (comparable a h).
  - destruct H as [c ->]. split; [discriminate|].
    split; [discriminate | intros [E|E]; discriminate E].
  - rewrite H. split; [discriminate|].
    split; [discriminate | intros [E|E]; discriminate E].
Qed.

Lemma comparison_never_divides_by_zero_witness :
  _calculate_comparison
    (Examples.test_with MoreExamples.ai_instant Examples.human_3h)
  <> Raise ZeroDivisionError.
Proof.
  apply (comparison_never_divides_by_zero
           (Examples.test_with MoreExamples.ai_instant Examples.human_3h)).
Defined.

(** With both results present: a ["time_taken"] entry that is a string,
    on either side, makes [_calculate_comparison] raise [TypeError];
    a [TypeError] is raised only when a ["time_taken"] entry is a string
    or the two ["accuracy_score"] entries (0 when missing) are a number
    and a string; and whenever a comparison is returned, neither time is
    a string and the two accuracy entries are of the same kind. *)
Theorem comparison_type_error t a h :
  ai_results t = Some a -> human_results t = Some h ->
  (is_str (a !! "time_taken") = true \/ is_str (h !! "time_taken") = true ->
   _calculate_comparison t = Raise TypeError) /\
  (_calculate_comparison t = Raise TypeError ->
   is_str (a !! "time_taken") = true \/
   is_str (h !! "time_taken") = true \/
   same_kind (default (VNum 0) (a !! "accuracy_score"))
             (default (VNum 0) (h !! "accuracy_score")) = false) /\
  (forall c, _calculate_comparison t = Ok c ->
   is_str (a !! "time_taken") = false /\
   is_str (h !! "time_taken") = false /\
   same_kind (default (VNum 0) (a !! "accuracy_score"))
             (default (VNum 0) (h !! "accuracy_score")) = true).
Proof.
  intros Ha Hh. pose proof (calc_outcome t a h Ha Hh) as H.
  unfold comparable in H.
  destruct (is_str (a !! "time_taken")), (is_str (h !! "time_taken")),
    (same_kind _ _); cbn [negb andb] in H;
    try (rewrite H; split; [reflexivity|]; split; [tauto|];
         intros c Hc; discriminate Hc).
  destruct H as [c Hc]. rewrite Hc. split; [|split].
  - intros [E|E]; discriminate E.
  - discriminate.
  - intros _ _. repeat split.
Qed.

Lemma comparison_type_error_witness :
  _calculate_comparison
    (Examples.test_with Examples.ai_5s MoreExamples.human_text)
  = Raise TypeError.
Proof.
  apply (comparison_type_error
           (Examples.test_with Examples.ai_5s MoreExamples.human_text)
           Examples.ai_5s MoreExamples.human_text eq_refl eq_refl).
  right. reflexivity.
Defined.

(** In a computed comparison with numeric times, the AI cost is the AI
    time at 0.01 per second, the human cost is the human time at 150 per
    3600 seconds, and the savings are their difference.  Neither cost is
    negative when its time is not, and with non-negative times the
    savings do not exceed the human cost. *)
Theorem cost_comparison_formula t a h x y c :
  _calculate_comparison t = Ok c ->
  ai_results t = Some a -> human_results t = Some h ->
  a !! "time_taken" = Some (VNum x) -> h !! "time_taken" = Some (VNum y) ->
  ai_cost (cost_comparison c) = x * 0.01 /\
  human_cost (cost_comparison c) = y / 3600 * 150 /\
  savings (cost_comparison c)
    = human_cost (cost_comparison c) - ai_cost (cost_comparison c) /\
  (0 <= x -> 0 <= ai_cost (cost_comparison c)) /\
  (0 <= y -> 0 <= human_cost (cost_comparison c)) /\
  (0 <= x -> 0 <= y ->
   savings (cost_comparison c) <= human_cost (cost_comparison c)).
Proof.
  intros H Ha Hh Hx Hy.
  destruct (calc_entries t a h c H Ha Hh)
    as (x0 & x1 & y999 & y1 & y0 & f & b & E0 & _ & _ & _ & F0 & _ & _ & ->).
  rewrite Hx in E0. rewrite Hy in F0. simpl in E0, F0.
  injection E0 as <-. injection F0 as <-.
  cbn [cost_comparison ai_cost human_cost savings].
  repeat split; try reflexivity;
    unfold Qdiv; change (/ 3600) with (1 # 3600); intros; lra.
Qed.

Lemma cost_comparison_formula_witness :
  exists c,
    _calculate_comparison (Examples.test_with Examples.ai_5s Examples.human_3h) = Ok c /\
    savings (cost_comparison c) = 10800 / 3600 * 150 - 5 * 0.01 /\
    savings (cost_comparison c) <= human_cost (cost_comparison c).
Proof.
  eexists. split; [vm_compute; reflexivity|].
  destruct (cost_comparison_formula
              (Examples.test_with Examples.ai_5s Examples.human_3h)
              Examples.ai_5s Examples.human_3h 5 10800 _
              eq_refl eq_refl eq_refl eq_refl eq_refl)
    as (_ & _ & _ & _ & _ & H).
  split; [reflexivity|]. apply H; discriminate.
Defined.

(** Whenever a comparison is computed from a human record without
    ["time_taken"] (and an AI result with a numeric one), the defaults
    show: the speed selector compares the AI time with 999, the
    multiplier is 1 over the floored AI time, the human cost is 0 and the
    savings are minus the AI cost. *)
Theorem missing_human_time_defaults t a h x c :
  _calculate_comparison t = Ok c ->
  ai_results t = Some a -> human_results t = Some h ->
  a !! "time_taken" = Some (VNum x) -> h !! "time_taken" = None ->
  (speed_advantage c = "AI" <-> x < 999) /\
  speed_multiplier c = 1 / Qmax x 0.1 /\
  human_cost (cost_comparison c) == 0 /\
  savings (cost_comparison c) == - (x * 0.01).
Proof.
  intros H Ha Hh Hx Hy.
  destruct (calc_entries t a h c H Ha Hh)
    as (x0 & x1 & y999 & y1 & y0 & f & b & E0 & E1 & F999 & F1 & F0 & _ & -> & ->).
  rewrite Hx in E0, E1. rewrite Hy in F999, F1, F0. simpl in *.
  injection E0 as <-. injection E1 as <-.
  injection F999 as <-. injection F1 as <-. injection F0 as <-.
  cbn [cost_comparison human_cost savings speed_advantage speed_multiplier].
  rewrite selector_AI, Qltb_lt.
  unfold Qdiv. change (/ 3600) with (1 # 3600).
  split; [tauto|]. split; [reflexivity|]. split; lra.
Qed.

Lemma missing_human_time_defaults_witness :
  exists c,
    _calculate_comparison
      (Examples.test_with Examples.ai_5s MoreExamples.human_no_time) = Ok c /\
    speed_advantage c = "AI" /\
    speed_multiplier c = 1 / Qmax 5 0.1.
Proof.
  eexists. split; [vm_compute; reflexivity|].
  destruct (missing_human_time_defaults
              (Examples.test_with Examples.ai_5s MoreExamples.human_no_time)
              Examples.ai_5s MoreExamples.human_no_time 5 _
              eq_refl eq_refl eq_refl eq_refl eq_refl) as (H1 & H2 & _).
  split; [apply H1; reflexivity | exact H2].
Defined.

(** Whenever a comparison is computed from an AI result without
    ["time_taken"] (the dict stored for an unknown test type) and a human
    record with a numeric one, the defaults show: the speed selector
    compares 0 with the human time, the multiplier is the human time
    divided by 1, the AI cost is 0 and the savings are the human cost. *)
Theorem missing_ai_time_defaults t a h y c :
  _calculate_comparison t = Ok c ->
  ai_results t = Some a -> human_results t = Some h ->
  a !! "time_taken" = None -> h !! "time_taken" = Some (VNum y) ->
  (speed_advantage c = "AI" <-> 0 < y) /\
  speed_multiplier c = y / 1 /\
  ai_cost (cost_comparison c) == 0 /\
  savings (cost_comparison c) == human_cost (cost_comparison c).
Proof.
  intros H Ha Hh Hx Hy.
  destruct (calc_entries t a h c H Ha Hh)
    as (x0 & x1 & y999 & y1 & y0 & f & b & E0 & E1 & F999 & F1 & F0 & _ & -> & ->).
  rewrite Hx in E0, E1. rewrite Hy in F999, F1, F0. simpl in *.
  injection E0 as <-. injection E1 as <-.
  injection F999 as <-. injection F1 as <-. injection F0 as <-.
  cbn [cost_comparison ai_cost human_cost savings speed_advantage speed_multiplier].
  rewrite selector_AI, Qltb_lt.
  change (Qmax 1 0.1) with 1.
  split; [tauto|]. split; [reflexivity|]. split; lra.
Qed.

Lemma missing_ai_time_defaults_witness :
  exists c,
    _calculate_comparison
      (Examples.test_with (ai_result "payroll" 5) Examples.human_3h) = Ok c /\
    speed_advantage c = "AI" /\
    speed_multiplier c = 10800 / 1.
Proof.
  eexists. split; [vm_compute; reflexivity|].
  destruct (missing_ai_time_defaults
              (Examples.test_with (ai_result "payroll" 5) Examples.human_3h)
              (ai_result "payroll" 5) Examples.human_3h 10800 _
              eq_refl eq_refl eq_refl eq_refl eq_refl) as (H1 & H2 & _).
  split; [apply H1; reflexivity | exact H2].
Defined.

Lemma ai_result_time ty elapsed :
  ai_result ty elapsed !! "time_taken" = Some (VNum elapsed) \/
  ai_result ty elapsed !! "time_taken" = None.
Proof.
  unfold ai_result. repeat case_decide; [left|left|left|right]; reflexivity.
Qed.

Lemma ai_result_accuracy ty elapsed :
  ai_result ty elapsed !! "accuracy_score"
  = if decide (ty = "tax_preparation") then Some (VNum 0.98) else None.
Proof.
  unfold ai_result. repeat case_decide; reflexivity.
Qed.

Lemma ai_result_comparable ty elapsed (h : dict) :
  is_str (h !! "time_taken") = false ->
  is_str (h !! "accuracy_score") = false ->
  comparable (ai_result ty elapsed) h = true.
Proof.
  intros Ht Hs. unfold comparable. rewrite Ht, ai_result_accuracy.
  destruct (ai_result_time ty elapsed) as [-> | ->];
    case_decide; destruct (h !! "accuracy_score") as [[q|s]|];
    try discriminate Hs; reflexivity.
Qed.

(** Only the simulated result of a ["tax_preparation"] test carries an
    ["accuracy_score"] (0.98); for every other test type the AI side of
    the accuracy comparison is the default 0, so the AI wins on accuracy
    only against a negative human score. *)
Theorem simulated_accuracy_score t ty elapsed h q c :
  _calculate_comparison t = Ok c ->
  ai_results t = Some (ai_result ty elapsed) -> human_results t = Some h ->
  h !! "accuracy_score" = Some (VNum q) ->
  (ty = "tax_preparation" ->
   ai (accuracy_comparison c) = VNum 0.98 /\
   (winner (accuracy_comparison c) = "AI" <-> q < 0.98)) /\
  (ty <> "tax_preparation" ->
   ai (accuracy_comparison c) = VNum 0 /\
   (winner (accuracy_comparison c) = "AI" <-> q < 0)).
Proof.
  intros H Ha Hh Hq.
  destruct (calc_entries t _ h c H Ha Hh)
    as (x0 & x1 & y999 & y1 & y0 & f & b & _ & _ & _ & _ & _ & Hb & _ & ->).
  rewrite Hq, ai_result_accuracy in Hb |- *.
  cbn [accuracy_comparison ai winner].
  split; intros Hty; case_decide; try contradiction;
    simpl in Hb |- *; injection Hb as <-;
    rewrite selector_AI, Qltb_lt; done.
Qed.

Lemma simulated_accuracy_score_witness :
  exists c,
    _calculate_comparison
      (Examples.test_with (ai_result "research" 5) Examples.human_3h) = Ok c /\
    ai (accuracy_comparison c) = VNum 0 /\
    winner (accuracy_comparison c) = "Human".
Proof.
  eexists. split; [vm_compute; reflexivity|].
  destruct (simulated_accuracy_score
              (Examples.test_with (ai_result "research" 5) Examples.human_3h)
              "research" 5 Examples.human_3h 0.95 _
              eq_refl eq_refl eq_refl eq_refl) as [_ H].
  destruct H as [H _]; [discriminate|]. split; [exact H | reflexivity].
Defined.

(** ** Registries that calls have led to *)

Lemma calc_Ok_inv t c :
  _calculate_comparison t = Ok c ->
  is_Some (ai_results t) /\ is_Some (human_results t) /\ overall_winner c = "AI".
Proof.
  intros H.
  destruct (ai_results t) as [a|] eqn:Ha;
    [|rewrite calc_missing in H by auto; discriminate H].
  destruct (human_results t) as [h|] eqn:Hh;
    [|rewrite calc_missing in H by auto; discriminate H].
  destruct (calc_entries t a h c H Ha Hh)
    as (? & ? & ? & ? & ? & ? & ? & _ & _ & _ & _ & _ & _ & _ & ->).
  eauto.
Qed.

Lemma created_consistent self ty sc cx clock now :
  consistent (create_benchmark_test self ty sc cx clock now).1.
Proof.
  repeat split; simpl; try discriminate; intros [x Hx]; discriminate Hx.
Qed.

Lemma evolves_consistent t cl t' :
  evolves t cl t' -> consistent t -> consistent t'.
Proof.
  intros He (Hc & Ha & Hta & Hth).
  destruct He as [id ag el now | id hr now e Hr | id hr now cmp Hr].
  - split; [|split; [|split]]; simpl.
    + intros cm Hcmp. apply Hc in Hcmp. split; [eauto | tauto].
    + intros a [= <-]. eauto.
    + split; eauto.
    + exact Hth.
  - split; [|split; [|split]]; simpl.
    + intros cm Hcmp. apply Hc in Hcmp. split; [tauto|]. split; [eauto|]. tauto.
    + exact Ha.
    + exact Hta.
    + split; eauto.
  - apply calc_Ok_inv in Hr as (Hai & _ & Hw). simpl in Hai.
    split; [|split; [|split]]; simpl.
    + intros cm [= <-]. split; [exact Hai|]. split; [eauto|]. split; [reflexivity | exact Hw].
    + exact Ha.
    + exact Hta.
    + split; eauto.
Qed.

Lemma reachable_consistent self :
  reachable self -> Forall consistent (tests self).
Proof.
  induction 1 as [|self c _ IH]; [constructor|].
  destruct (step_tests self c)
    as [(ty & sc & cx & clock & now & -> & Ht)
       | [[_ ->] | (j & u & u' & _ & Hu & He & Ht)]].
  - rewrite Ht. apply Forall_app. split; [exact IH|].
    constructor; [apply created_consistent | constructor].
  - exact IH.
  - rewrite Ht. apply Forall_insert; [exact IH|].
    eapply evolves_consistent; [exact He|].
    eapply Forall_lookup_1; eauto.
Qed.

(** In every registry a history of calls leads to: a stored comparison
    implies that both results are present, that the status is
    ["completed"] and that its overall winner is ["AI"]; a stored AI
    result is the simulated result for the type of its test; and each
    completion time is present exactly when its result is. *)
Theorem stored_results_are_consistent self t :
  reachable self -> t ∈ tests self ->
  (forall c, comparison t = Some c ->
     is_Some (ai_results t) /\ is_Some (human_results t) /\
     status t = "completed" /\ overall_winner c = "AI") /\
  (forall a, ai_results t = Some a ->
     exists elapsed, a = ai_result (test_type t) elapsed) /\
  (is_Some (ai_completed_at t) <-> is_Some (ai_results t)) /\
  (is_Some (human_completed_at t) <-> is_Some (human_results t)).
Proof.
  intros Hr Ht. apply reachable_consistent in Hr.
  rewrite Forall_forall in Hr. exact (Hr t Ht).
Qed.

Lemma stored_results_are_consistent_witness :
  exists t,
    tests Examples.completed !! 0%nat = Some t /\
    is_Some (comparison t) /\
    is_Some (ai_results t) /\ is_Some (human_results t) /\
    status t = "completed".
Proof.
  destruct (tests Examples.completed !! 0%nat) as [t|] eqn:E;
    [|discriminate E].
  exists t. split; [reflexivity|].
  assert (Hc : is_Some (comparison t)).
  { revert E. vm_compute. intros [= <-]. by eexists. }
  split; [exact Hc|]. destruct Hc as [c Hc].
  destruct (stored_results_are_consistent Examples.completed t) as [H _].
  - repeat constructor.
  - eapply list_elem_of_lookup_2. exact E.
  - destruct (H c Hc) as (H1 & H2 & H3 & _). auto.
Defined.

Lemma _get_test_store self id i t t' :
  _get_test self id = Some (i, t) -> test_id t' = test_id t ->
  _get_test (store self i t') id = Some (i, t').
Proof.
  unfold _get_test. intros H Hid. apply list_find_Some in H as (Hi & Hp & Hmin).
  apply list_find_Some. simpl. split; [|split].
  - apply list_lookup_insert_eq. by eapply lookup_lt_Some.
  - congruence.
  - intros j y Hj Hlt. rewrite list_lookup_insert_ne in Hj by lia. eauto.
Qed.

(** In a registry that calls have led to, once a test has an AI result,
    recording a human result whose ["time_taken"] and ["accuracy_score"]
    are numbers or missing raises neither [AttributeError] nor
    [TypeError] and does not return the not-found dict; and a comparison
    that is returned is the one computed from the two results and stored
    on the test found under the id. *)
Theorem human_result_after_ai_run self id hr now i t :
  reachable self ->
  _get_test self id = Some (i, t) ->
  is_Some (ai_results t) ->
  is_str (hr !! "time_taken") = false ->
  is_str (hr !! "accuracy_score") = false ->
  (record_human_results self id hr now).1 <> Raise AttributeError /\
  (record_human_results self id hr now).1 <> Raise TypeError /\
  (record_human_results self id hr now).1 <> Ok (ErrorDict not_found) /\
  (forall c,
     (record_human_results self id hr now).1 = Ok (ComparisonDict c) ->
     _get_test (record_human_results self id hr now).2 id
       = Some (i, set_comparison (human_recorded t hr now) c) /\
     _calculate_comparison (human_recorded t hr now) = Ok c).
Proof.
  intros Hr Hget [a Ha] Ht Hs.
  pose proof Hget as Hget'. apply _get_test_Some in Hget' as [Hi _].
  apply reachable_consistent in Hr.
  pose proof (Forall_lookup_1 _ _ _ _ Hr Hi) as (_ & Hform & _).
  destruct (Hform a Ha) as [el ->].
  pose proof (calc_outcome (human_recorded t hr now) _ hr Ha eq_refl) as Hc.
  rewrite (ai_result_comparable _ _ hr Ht Hs) in Hc. destruct Hc as [c Hc].
  unfold record_human_results. rewrite Hget.
  fold (human_recorded t hr now). rewrite Hc. cbn [fst snd].
  split; [discriminate|]. split; [discriminate|]. split; [discriminate|].
  intros c' [= <-]. split; [|reflexivity].
  assert (E : store (store self i (human_recorded t hr now)) i
                (set_comparison (human_recorded t hr now) c)
              = store self i (set_comparison (human_recorded t hr now) c)).
  { unfold store at 1 3. f_equal. apply store_store. }
  rewrite E. by apply (_get_test_store self id i t).
Qed.

Lemma human_result_after_ai_run_witness :
  exists c,
    (record_human_results Examples.ai_done Examples.the_id
       Examples.human_3h Examples.stamp3).1 = Ok (ComparisonDict c) /\
    speed_advantage c = "AI" /\
    (comparison ∘ snd) <$>
      _get_test (record_human_results Examples.ai_done Examples.the_id
                   Examples.human_3h Examples.stamp3).2 Examples.the_id
    = Some (Some c).
Proof.
  eexists. split; [vm_compute; reflexivity|]. split; [reflexivity|].
  destruct (human_result_after_ai_run Examples.ai_done Examples.the_id
              Examples.human_3h Examples.stamp3 0%nat
              (ai_recorded
                 (create_benchmark_test init "tax_preparation" ∅ "high"
                    1700000000.2 Examples.stamp0).1 5 Examples.stamp2))
    as (_ & _ & _ & H).
  - repeat constructor.
  - reflexivity.
  - by eexists.
  - reflexivity.
  - reflexivity.
  - edestruct H as [H1 _]; [vm_compute; reflexivity|].
    rewrite H1. reflexivity.
Defined.

(** A [record_human_results] call that raises has already written: the
    test found under the id holds the new human result and the status
    ["completed"], while its comparison is the one it had before (none,
    or a stale one).  The exception is [AttributeError] exactly when the
    test has no AI result. *)
Theorem failed_record_still_stores self id hr now i t e :
  _get_test self id = Some (i, t) ->
  (record_human_results self id hr now).1 = Raise e ->
  _get_test (record_human_results self id hr now).2 id
    = Some (i, human_recorded t hr now) /\
  human_results (human_recorded t hr now) = Some hr /\
  status (human_recorded t hr now) = "completed" /\
  comparison (human_recorded t hr now) = comparison t /\
  (e = AttributeError <-> ai_results t = None).
Proof.
  intros Hget He. unfold record_human_results in *. rewrite Hget in *.
  fold (human_recorded t hr now) in *.
  destruct (_calculate_comparison (human_recorded t hr now)) as [c|e'] eqn:Hc;
    cbn [fst snd] in *; [discriminate He|]. injection He as ->.
  split; [by apply (_get_test_store self id i t)|].
  split; [reflexivity|]. split; [reflexivity|]. split; [reflexivity|].
  destruct (ai_results t) as [a|] eqn:Ha.
  - pose proof (calc_outcome (human_recorded t hr now) a hr Ha eq_refl) as H.
    destruct (comparable a hr); [destruct H as [c H]|];
      split; intros E; congruence.
  - rewrite calc_missing in Hc by (left; exact Ha).
    split; [reflexivity | congruence].
Qed.

Lemma failed_record_still_stores_witness :
  exists t',
    _get_test (record_human_results Examples.completed Examples.the_id
                 MoreExamples.human_text Examples.stamp3).2 Examples.the_id
      = Some (0%nat, t') /\
    human_results t' = Some MoreExamples.human_text /\
    multiplier_of t' = 10800 # 5.
Proof.
  destruct (tests Examples.completed !! 0%nat) as [t|] eqn:E;
    [|discriminate E].
  destruct (failed_record_still_stores Examples.completed Examples.the_id
              MoreExamples.human_text Examples.stamp3 0%nat t TypeError)
    as (H1 & H2 & _ & H4 & _).
  - revert E. vm_compute. intros [= <-]. reflexivity.
  - reflexivity.
  - exists (human_recorded t MoreExamples.human_text Examples.stamp3).
    split; [exact H1|]. split; [exact H2|].
    unfold multiplier_of. rewrite H4.
    revert E. vm_compute. intros [= <-]. reflexivity.
Defined.

(** For a test whose type is none of the three known ones,
    [run_ai_benchmark] does not fail: it returns the dict
    [{"error": "Unknown test type"}], stores that dict as the AI result of
    the test and stamps the completion time; the status is unchanged. *)
Theorem unknown_type_result_is_stored self id ai_agents elapsed now i t :
  _get_test self id = Some (i, t) ->
  test_type t <> "tax_preparation" ->
  test_type t <> "audit_defense" ->
  test_type t <> "research" ->
  (run_ai_benchmark self id ai_agents elapsed now).1
    = {[ "error" := VStr "Unknown test type" ]} /\
  _get_test (run_ai_benchmark self id ai_agents elapsed now).2 id
    = Some (i, ai_recorded t elapsed now) /\
  ai_results (ai_recorded t elapsed now)
    = Some {[ "error" := VStr "Unknown test type" ]} /\
  ai_completed_at (ai_recorded t elapsed now) = Some now /\
  status (ai_recorded t elapsed now) = status t.
Proof.
  intros Hget H1 H2 H3.
  assert (E : ai_result (test_type t) elapsed = {[ "error" := VStr "Unknown test type" ]}).
  { unfold ai_result. by repeat case_decide. }
  unfold run_ai_benchmark. rewrite Hget. cbn [fst snd].
  fold (ai_recorded t elapsed now).
  split; [exact E|]. split; [by apply (_get_test_store self id i t)|].
  unfold ai_recorded. simpl. rewrite E. done.
Qed.

Lemma unknown_type_result_is_stored_witness :
  ai_results <$> tests MoreExamples.unknown_ai_done !! 0%nat
  = Some (Some {[ "error" := VStr "Unknown test type" ]}).
Proof.
  destruct (unknown_type_result_is_stored MoreExamples.unknown_created
              Examples.the_id ∅ 5 Examples.stamp2 0%nat
              (create_benchmark_test init "payroll" ∅ "low"
                 1700000000.2 Examples.stamp0).1)
    as (_ & H2 & H3 & _);
    [reflexivity | discriminate | discriminate | discriminate |].
  apply _get_test_Some in H2 as [H2 _].
  change (tests MoreExamples.unknown_ai_done !! 0%nat) with
    (tests (run_ai_benchmark MoreExamples.unknown_created Examples.the_id ∅ 5
              Examples.stamp2).2 !! 0%nat).
  rewrite H2. exact (f_equal Some H3).
Defined.

Lemma ai_result_error ty elapsed :
  is_Some (ai_result ty elapsed !! "error") <->
  ty <> "tax_preparation" /\ ty <> "audit_defense" /\ ty <> "research".
Proof.
  unfold ai_result.
  destruct (decide (ty = "tax_preparation")) as [E1|E1];
    [|destruct (decide (ty = "audit_defense")) as [E2|E2];
      [|destruct (decide (ty = "research")) as [E3|E3]]].
  - split; [intros [x Hx]; discriminate Hx | tauto].
  - split; [intros [x Hx]; discriminate Hx | tauto].
  - split; [intros [x Hx]; discriminate Hx | tauto].
  - split; [tauto | intros _; by eexists].
Qed.

(** The dict [run_ai_benchmark] returns has an ["error"] entry exactly
    when the id is unknown or the test found has an unknown type;
    [record_human_results] returns the not-found dict exactly when the id
    is unknown. *)
Theorem error_entry_iff self id ai_agents elapsed hr now :
  (is_Some ((run_ai_benchmark self id ai_agents elapsed now).1 !! "error") <->
   _get_test self id = None \/
   exists i t, _get_test self id = Some (i, t) /\
               test_type t <> "tax_preparation" /\
               test_type t <> "audit_defense" /\
               test_type t <> "research") /\
  ((record_human_results self id hr now).1 = Ok (ErrorDict not_found) <->
   _get_test self id = None).
Proof.
  split.
  - unfold run_ai_benchmark.
    destruct (_get_test self id) as [[i t]|] eqn:Hget; cbn [fst].
    + rewrite ai_result_error. split.
      * intros H. right. by exists i, t.
      * intros [H|(i' & t' & [= <- <-] & H)]; [discriminate H | exact H].
    + split; [auto | intros _; by eexists].
  - unfold record_human_results.
    destruct (_get_test self id) as [[i t]|] eqn:Hget; cbn [fst]; [|done].
    destruct (_calculate_comparison _); split; discriminate.
Qed.

Lemma error_entry_iff_witness :
  is_Some ((run_ai_benchmark MoreExamples.unknown_created Examples.the_id ∅ 5
              Examples.stamp2).1 !! "error").
Proof.
  apply (error_entry_iff MoreExamples.unknown_created Examples.the_id ∅ 5
           Examples.human_3h Examples.stamp2).
  right. do 2 eexists. split; [reflexivity|]. repeat split; discriminate.
Defined.

Lemma store_twice self i t t' : store (store self i t) i t' = store self i t'.
Proof. unfold store. simpl. f_equal. apply list_insert_insert_eq. Qed.

(** Repeating a recording: a second [run_ai_benchmark] on the same id
    leaves the registry that this second run alone would have left, and a
    second [record_human_results] with the same metrics leaves the
    registry that the second call alone would have left. *)
Theorem last_recording_wins self id ai_agents ai_agents' elapsed elapsed' hr now now' :
  step (step self (RunAiBenchmark id ai_agents elapsed now))
       (RunAiBenchmark id ai_agents' elapsed' now')
    = step self (RunAiBenchmark id ai_agents' elapsed' now') /\
  step (step self (RecordHumanResults id hr now))
       (RecordHumanResults id hr now')
    = step self (RecordHumanResults id hr now').
Proof.
  split.
  - cbn [step]. unfold run_ai_benchmark at 2 3.
    destruct (_get_test self id) as [[i t]|] eqn:Hget; cbn [snd].
    + fold (ai_recorded t elapsed now) (ai_recorded t elapsed' now').
      unfold run_ai_benchmark.
      rewrite (_get_test_store self id i t (ai_recorded t elapsed now) Hget eq_refl).
      cbn [snd]. apply store_twice.
    + unfold run_ai_benchmark. by rewrite Hget.
  - cbn [step]. unfold record_human_results at 2 3.
    destruct (_get_test self id) as [[i t]|] eqn:Hget; cycle 1.
    { cbn [snd]. unfold record_human_results. by rewrite Hget. }
    fold (human_recorded t hr now) (human_recorded t hr now').
    assert (Hsame : _calculate_comparison (human_recorded t hr now')
                    = _calculate_comparison (human_recorded t hr now))
      by reflexivity.
    rewrite Hsame.
    destruct (_calculate_comparison (human_recorded t hr now)) as [c|e] eqn:Hc;
      cbn [snd].
    + rewrite !store_twice. unfold record_human_results.
      rewrite (_get_test_store self id i t
                 (set_comparison (human_recorded t hr now) c) Hget eq_refl).
      change (_calculate_comparison _)
        with (_calculate_comparison (human_recorded t hr now)).
      rewrite Hc. cbn [snd]. rewrite !store_twice. reflexivity.
    + unfold record_human_results.
      rewrite (_get_test_store self id i t (human_recorded t hr now) Hget eq_refl).
      change (_calculate_comparison _)
        with (_calculate_comparison (human_recorded t hr now)).
      rewrite Hc. cbn [snd]. rewrite !store_twice. reflexivity.
Qed.

(** ** The leaderboard over histories *)

Lemma consistent_wins (l : list test) :
  Forall consistent l ->
  filter (fun t => winner_of t = Some "AI") l = filter has_comparison l.
Proof.
  induction 1 as [|t l Ht _ IH]; [reflexivity|].
  rewrite !filter_cons, IH. destruct Ht as (Hc & _).
  destruct (decide (winner_of t = Some "AI")) as [Hw|Hw];
    destruct (decide (has_comparison t)) as [Hh|Hh]; try reflexivity.
  - exfalso. apply Hh. unfold winner_of in Hw. unfold has_comparison.
    destruct (comparison t) eqn:E; [by eexists | discriminate Hw].
  - exfalso. apply Hw. destruct Hh as [c E]. unfold winner_of.
    rewrite E. simpl. by destruct (Hc c E) as (_ & _ & _ & ->).
Qed.

Lemma with_or_without (l : list test) :
  length l = (length (filter has_comparison l)
              + length (filter (fun t => comparison t = None) l))%nat.
Proof.
  induction l as [|t l IH]; [reflexivity|].
  rewrite !filter_cons.
  destruct (decide (has_comparison t)) as [Hh|Hh];
    destruct (decide (comparison t = None)) as [Hn|Hn]; simpl; try lia.
  - destruct Hh as [c E]. congruence.
  - exfalso. apply Hh. unfold has_comparison.
    destruct (comparison t); [by eexists | done].
Qed.

(** In a registry that calls have led to, [ai_wins] is the number of
    tests with a stored comparison and [human_wins] is the number of
    tests without one: a human win is never a compared test. *)
Theorem leaderboard_counts_comparisons (format_1f : Q -> string) self :
  reachable self ->
  let lb := get_leaderboard format_1f self in
  ai_wins lb = Z.of_nat (length (filter has_comparison (tests self))) /\
  human_wins lb
    = Z.of_nat (length (filter (fun t => comparison t = None) (tests self))) /\
  (total_tests lb = ai_wins lb + human_wins lb)%Z.
Proof.
  intros Hr. apply reachable_consistent in Hr. simpl.
  rewrite sum_Z_ones, (consistent_wins _ Hr).
  pose proof (with_or_without (tests self)). lia.
Qed.

Lemma leaderboard_counts_comparisons_witness :
  let lb := get_leaderboard (fun _ => "") Examples.one_of_two in
  ai_wins lb = 1%Z /\ human_wins lb = 1%Z /\
  length (filter has_comparison (tests Examples.one_of_two)) = 1%nat.
Proof.
  destruct (leaderboard_counts_comparisons (fun _ => "") Examples.one_of_two)
    as (H1 & H2 & _); [repeat constructor|].
  cbv zeta. rewrite H1, H2. repeat split.
Defined.

Lemma foldl_Qplus_start (l : list Q) (a : Q) :
  foldl Qplus a l == a + foldl Qplus 0 l.
Proof.
  revert a. induction l as [|x l IH]; intros a; simpl.
  - lra.
  - rewrite (IH (a + x)), (IH (0 + x)). lra.
Qed.

Lemma sum_Q_cons (x : Q) (l : list Q) : sum_Q (x :: l) == x + sum_Q l.
Proof. unfold sum_Q. simpl. rewrite foldl_Qplus_start. lra. Qed.

Lemma savings_without t : comparison t = None -> savings_of t = 0.
Proof. unfold savings_of. by intros ->. Qed.

Lemma total_savings_filter (l : list test) :
  sum_Q (savings_of <$> l) == sum_Q (savings_of <$> filter has_comparison l).
Proof.
  induction l as [|t l IH]; [reflexivity|].
  rewrite filter_cons, fmap_cons, sum_Q_cons, IH.
  destruct (decide (has_comparison t)) as [Hh|Hh].
  - by rewrite fmap_cons, sum_Q_cons.
  - rewrite (savings_without t); [lra|].
    destruct (comparison t) eqn:E; [|done]. exfalso. apply Hh.
    unfold has_comparison. rewrite E. by eexists.
Qed.

(** [total_cost_savings] is the sum of the savings of the tests that
    have a comparison: a test without one contributes nothing. *)
Theorem savings_come_from_comparisons (format_1f : Q -> string) self :
  total_cost_savings (get_leaderboard format_1f self)
  == sum_Q (savings_of <$> filter has_comparison (tests self)).
Proof. apply total_savings_filter. Qed.

Lemma filter_none (P : test -> Prop) `{!forall t, Decision (P t)} (l : list test) :
  (forall t, t ∈ l -> ~ P t) -> filter P l = [].
Proof.
  induction l as [|t l IH]; intros Hno; [reflexivity|].
  rewrite filter_cons. destruct (decide (P t)) as [Hp|Hp].
  - exfalso. apply (Hno t); [left | exact Hp].
  - apply IH. intros u Hu. apply Hno. by right.
Qed.

(** When no test has a comparison (in particular on an empty registry),
    the leaderboard reports no AI win, every test as a human win, a win
    rate and total savings of 0, and the average speed improvement of
    [0 / 1] rendered by the float format. *)
Theorem leaderboard_without_comparisons (format_1f : Q -> string) self :
  (forall t, t ∈ tests self -> comparison t = None) ->
  let lb := get_leaderboard format_1f self in
  ai_wins lb = 0%Z /\
  human_wins lb = total_tests lb /\
  ai_win_rate lb == 0 /\
  average_speed_improvement lb = format_1f (0 / inject_Z 1) +:+ "x faster" /\
  total_cost_savings lb == 0.
Proof.
  intros Hnone.
  assert (H1 : filter (fun t => winner_of t = Some "AI") (tests self) = []).
  { apply filter_none. intros t Ht. unfold winner_of. by rewrite (Hnone t Ht). }
  assert (H2 : filter has_comparison (tests self) = []).
  { apply filter_none. intros t Ht [x Hx]. rewrite (Hnone t Ht) in Hx. discriminate Hx. }
  pose proof (total_savings_filter (tests self)) as Hs.
  cbv zeta. cbn [get_leaderboard ai_wins human_wins total_tests ai_win_rate
                 average_speed_improvement total_cost_savings] in *.
  rewrite H1. rewrite H2 in *. cbn [fmap list_fmap sum_Z sum_Q foldl length Z.of_nat] in *.
  split; [reflexivity|]. split; [lia|]. split; [|split; [reflexivity | exact Hs]].
  unfold Qdiv. rewrite Qmult_0_l. reflexivity.
Qed.

Lemma leaderboard_without_comparisons_witness :
  let lb := get_leaderboard (fun _ => "") Examples.created_later in
  ai_wins lb = 0%Z /\ human_wins lb = 2%Z.
Proof.
  destruct (leaderboard_without_comparisons (fun _ => "") Examples.created_later)
    as (H1 & H2 & _).
  - intros t Ht. apply list_elem_of_In in Ht. simpl in Ht.
    destruct Ht as [<-|[<-|[]]]; reflexivity.
  - cbv zeta. rewrite H1, H2. split; reflexivity.
Defined.

Lemma filter_insert_mono (P : test -> Prop) `{!forall t, Decision (P t)}
    (l : list test) (i : nat) (x y : test) :
  l !! i = Some y -> (P y -> P x) ->
  (length (filter P l) <= length (filter P (<[i := x]> l)))%nat.
Proof.
  revert i. induction l as [|z l IH]; intros i Hi Himp; [discriminate Hi|].
  destruct i as [|i]; simpl in *.
  - injection Hi as ->. rewrite !filter_cons.
    destruct (decide (P y)) as [Hy|Hy]; destruct (decide (P x)) as [Hx|Hx];
      simpl; try lia. tauto.
  - rewrite !filter_cons. specialize (IH i Hi Himp).
    destruct (decide (P z)); simpl; lia.
Qed.

Lemma evolves_winner t cl t' :
  evolves t cl t' -> winner_of t = Some "AI" -> winner_of t' = Some "AI".
Proof.
  intros [id ag el now | id hr now e Hr | id hr now cmp Hr]; try done.
  intros _. apply calc_Ok_inv in Hr as (_ & _ & Hw).
  unfold winner_of. simpl. by rewrite Hw.
Qed.

Lemma step_counters (format_1f : Q -> string) self cl :
  (total_tests (get_leaderboard format_1f self)
   <= total_tests (get_leaderboard format_1f (step self cl)))%Z /\
  (ai_wins (get_leaderboard format_1f self)
   <= ai_wins (get_leaderboard format_1f (step self cl)))%Z.
Proof.
  cbn [get_leaderboard total_tests ai_wins]. rewrite !sum_Z_ones.
  destruct (step_tests self cl)
    as [(ty & sc & cx & clock & now & -> & Ht)
       | [[_ Hs] | (j & u & u' & _ & Hu & He & Ht)]].
  - rewrite Ht, filter_app, !length_app. lia.
  - rewrite Hs. lia.
  - rewrite Ht, length_insert. split; [lia|].
    apply inj_le. apply (filter_insert_mono _ _ j u' u Hu).
    by apply evolves_winner with (cl := cl).
Qed.

(** Along every history of calls, [total_tests] and [ai_wins] never
    decrease. *)
Theorem leaderboard_counters_never_decrease (format_1f : Q -> string) self cs :
  (total_tests (get_leaderboard format_1f self)
   <= total_tests (get_leaderboard format_1f (run self cs)))%Z /\
  (ai_wins (get_leaderboard format_1f self)
   <= ai_wins (get_leaderboard format_1f (run self cs)))%Z.
Proof.
  revert self. induction cs as [|cl cs IH]; intros self; [split; reflexivity|].
  change (run self (cl :: cs)) with (run (step self cl) cs).
  destruct (IH (step self cl)) as [I1 I2].
  destruct (step_counters format_1f self cl) as [S1 S2].
  split; etransitivity; eassumption.
Qed.
